(** * check_issuance.py: change detection and due-date notifications

    A shallow embedding of [check_excel] and its helpers.  The run is a
    computation in a small state-and-exception monad over a [World] that
    holds the two persisted stores and a journal of every side effect, in
    the order in which the program performs them. *)

From Stdlib Require Import String Ascii DecimalString.
From Stdlib Require Import List ZArith NArith Bool Lia.
Import ListNotations.
Local Open Scope Z_scope.

(** ** Python text

    A Python [str] is a sequence of Unicode code points. *)

Definition pystr := list N.

Definition lit (s : string) : pystr :=
  map N_of_ascii (list_ascii_of_string s).

Fixpoint pystr_eqb (a b : pystr) : bool :=
  match a, b with
  | [], [] => true
  | x :: a', y :: b' => N.eqb x y && pystr_eqb a' b'
  | _, _ => false
  end.

(** The code points [str.strip()] removes (those for which
    [str.isspace] holds). *)
Definition is_space (c : N) : bool :=
  (((9 <=? c) && (c <=? 13)) || ((28 <=? c) && (c <=? 32))
   || (c =? 133) || (c =? 160) || (c =? 5760)
   || ((8192 <=? c) && (c <=? 8202))
   || (c =? 8232) || (c =? 8233) || (c =? 8239) || (c =? 8287)
   || (c =? 12288))%N.

Fixpoint lstrip (s : pystr) : pystr :=
  match s with
  | [] => []
  | c :: r => if is_space c then lstrip r else s
  end.

Definition rstrip (s : pystr) : pystr := rev (lstrip (rev s)).

Definition strip (s : pystr) : pystr := rstrip (lstrip s).

Definition is_ascii (c : N) : bool := (c <? 128)%N.

Definition ascii_lower (c : N) : N :=
  if ((65 <=? c) && (c <=? 90))%N then (c + 32)%N else c.

(** ** Cell values

    What [DataFrame.iat] and a row of [iterrows] hand back for a sheet of
    text, whole numbers, booleans and dates: an empty cell is the float
    [nan]; a date column after [pd.to_datetime(..., errors="coerce")] holds
    a [Timestamp] (nanoseconds since the epoch, a 64-bit count in pandas)
    or [NaT]. *)

Inductive value : Type :=
| VStr (s : pystr)
| VInt (z : Z)
| VBool (b : bool)
| VNaN
| VTimestamp (ns : Z)
| VNaT.

Definition Z_of_bool (b : bool) : Z := if b then 1 else 0.

(** [a == b] on cell values.  [nan] and [NaT] are equal to nothing, not
    even to themselves; a bool compares as the integer it is. *)
Definition py_eq (a b : value) : bool :=
  match a, b with
  | VStr x, VStr y => pystr_eqb x y
  | VInt x, VInt y => x =? y
  | VInt x, VBool y => x =? Z_of_bool y
  | VBool x, VInt y => Z_of_bool x =? y
  | VBool x, VBool y => Bool.eqb x y
  | VTimestamp x, VTimestamp y => x =? y
  | _, _ => false
  end.

(** [a != b]. *)
Definition py_ne (a b : value) : bool := negb (py_eq a b).

(** [pd.isnull]. *)
Definition isnull (v : value) : bool :=
  match v with
  | VNaN | VNaT => true
  | _ => false
  end.

(** *** [str(value)] *)

Definition int_str (z : Z) : pystr := lit (NilZero.string_of_int (Z.to_int z)).

Definition digit (d : Z) : N := (48 + Z.to_N (d mod 10))%N.

Definition pad2 (n : Z) : pystr := [digit (n / 10); digit n].

Definition pad3 (n : Z) : pystr := digit (n / 100) :: pad2 n.

Definition pad4 (n : Z) : pystr := digit (n / 1000) :: pad3 n.

Definition ns_per_second : Z := 1000000000.

Definition ns_per_day : Z := 86400 * ns_per_second.

(** Days since 1970-01-01 to (year, month, day) of the proleptic Gregorian
    calendar. *)
Definition civil_from_days (days : Z) : Z * Z * Z :=
  let z := days + 719468 in
  let era := z / 146097 in
  let doe := z - era * 146097 in
  let yoe := (doe - doe / 1460 + doe / 36524 - doe / 146096) / 365 in
  let doy := doe - (365 * yoe + yoe / 4 - yoe / 100) in
  let mp := (5 * doy + 2) / 153 in
  let d := doy - (153 * mp + 2) / 5 + 1 in
  let m := if mp <? 10 then mp + 3 else mp - 9 in
  let y := yoe + era * 400 + (if m <=? 2 then 1 else 0) in
  (y, m, d).

(** [str(Timestamp)]: [YYYY-MM-DD HH:MM:SS], followed by the fraction of a
    second in micro- or nanoseconds when there is one. *)
Definition timestamp_str (ns : Z) : pystr :=
  let '(y, m, d) := civil_from_days (ns / ns_per_day) in
  let tod := ns mod ns_per_day in
  let secs := tod / ns_per_second in
  let frac := tod mod ns_per_second in
  pad4 y ++ lit "-" ++ pad2 m ++ lit "-" ++ pad2 d ++ lit " "
  ++ pad2 (secs / 3600) ++ lit ":" ++ pad2 (secs / 60 mod 60) ++ lit ":"
  ++ pad2 (secs mod 60)
  ++ (if frac =? 0 then []
      else if frac mod 1000 =? 0
           then lit "." ++ pad3 (frac / 1000000) ++ pad3 (frac / 1000)
           else lit "." ++ pad3 (frac / 1000000) ++ pad3 (frac / 1000)
                ++ pad3 frac).

Definition py_str (v : value) : pystr :=
  match v with
  | VStr s => s
  | VInt z => int_str z
  | VBool true => lit "True"
  | VBool false => lit "False"
  | VNaN => lit "nan"
  | VTimestamp ns => timestamp_str ns
  | VNaT => lit "NaT"
  end.

(** ** Dates

    A [datetime.date] is its proleptic Gregorian ordinal: 1 is 0001-01-01
    and [date_max] is 9999-12-31. *)

Definition date := Z.

Definition date_max : date := 3652059.

Definition epoch_ordinal : date := 719163.

(** [Timestamp.date()]. *)
Definition timestamp_date (ns : Z) : date := epoch_ordinal + ns / ns_per_day.

(** ** Frames

    A [DataFrame] is rectangular: every row has one cell per column. *)

Record DataFrame : Type := {
  columns : list pystr;
  values : list (list value);
  rectangular :
    forallb (fun r => Nat.eqb (length r) (length columns)) values = true
}.

(** [len(df)]. *)
Definition len (df : DataFrame) : nat := length (values df).

(** [df.shape]. *)
Definition shape (df : DataFrame) : nat * nat :=
  (len df, length (columns df)).

Definition shape_eqb (a b : nat * nat) : bool :=
  Nat.eqb (fst a) (fst b) && Nat.eqb (snd a) (snd b).

(** [df.iat[row, col]]; [None] stands for the [IndexError] of a position
    outside the frame. *)
Definition iat (df : DataFrame) (row col : nat) : option value :=
  match nth_error (values df) row with
  | Some cells => nth_error cells col
  | None => None
  end.

(** [df.iloc[r].to_dict()]: the cells of row [r] under their column
    names. *)
Definition iloc_to_dict (df : DataFrame) (r : nat)
  : option (list (pystr * value)) :=
  option_map (combine (columns df)) (nth_error (values df) r).

(** One row as [iterrows] yields it. *)
Record Row : Type := { index : list pystr; cells : list value }.

Definition iterrows (df : DataFrame) : list Row :=
  map (fun r => {| index := columns df; cells := r |}) (values df).

(** The cell under the column named [key]; [read_excel] gives every
    column a name of its own. *)
Fixpoint lookup (key : pystr) (idx : list pystr) (vs : list value)
  : option value :=
  match idx, vs with
  | k :: idx', v :: vs' => if pystr_eqb key k then Some v else lookup key idx' vs'
  | _, _ => None
  end.

(** ** Effects *)

Record Email : Type := {
  subject : pystr;
  body : pystr;
  to_addrs : list pystr
}.

(** The lines [log_change] appends to the change log, by the f-string that
    produces them (the timestamp prefix is left out). *)
Inductive ChangeMessage : Type :=
| HashChanged
| ShapeChanged (old_shape new_shape : nat * nat)
| CellChanged (row col : nat) (val_previous val_current : value)
| RowAdded (r : nat) (record : list (pystr * value))
| RowRemoved (r : nat) (record : list (pystr * value))
| NoPreviousData.

Inductive Printout : Type :=
| HashWarning
| ErrorSendingEmail.

(** Everything a run does to the outside: a line appended to the change
    log, a line printed, a store overwritten, a message handed to the mail
    relay together with whether the relay took it. *)
Inductive Effect : Type :=
| Logged (m : ChangeMessage)
| Printed (p : Printout)
| PickleDumped (df : DataFrame)
| HashWritten (h : pystr)
| Smtp (msg : Email) (delivered : bool).

Record World : Type := {
  last_data_pkl : option DataFrame;
  last_hash_txt : option pystr;
  journal : list Effect
}.

Definition perform (e : Effect) (w : World) : World :=
  {| last_data_pkl :=
       match e with PickleDumped df => Some df | _ => last_data_pkl w end;
     last_hash_txt :=
       match e with HashWritten h => Some h | _ => last_hash_txt w end;
     journal := journal w ++ [e] |}.

(** The mail relay: whether the session for a message goes through, which
    may depend on all that happened before. *)
Definition Transport := list Effect -> Email -> bool.

Inductive Exception : Type :=
| KeyError (key : pystr)
| TypeError
| AttributeError
| OverflowError
| IndexError.

Inductive result (A : Type) : Type :=
| Ok (a : A)
| Raise (e : Exception).

Arguments Ok {A} a.
Arguments Raise {A} e.

Definition M (A : Type) : Type := World -> result A * World.

Definition ret {A} (a : A) : M A := fun w => (Ok a, w).

Definition raise {A} (e : Exception) : M A := fun w => (Raise e, w).

Definition bind {A B} (m : M A) (f : A -> M B) : M B :=
  fun w =>
    match m w with
    | (Ok a, w') => f a w'
    | (Raise e, w') => (Raise e, w')
    end.

Notation "x <- m ;; k" := (bind m (fun x => k))
  (at level 61, m at next level, right associativity).
Notation "m ;; k" := (bind m (fun _ => k))
  (at level 61, right associativity).

Definition or_raise {A} (e : Exception) (o : option A) : M A :=
  match o with
  | Some a => ret a
  | None => raise e
  end.

(** [for x in l: body(x)]. *)
Fixpoint for_ {A} (l : list A) (body : A -> M unit) : M unit :=
  match l with
  | [] => ret tt
  | x :: l' => body x ;; for_ l' body
  end.

(** [range(a, b)]. *)
Definition range (a b : nat) : list nat := seq a (b - a).

Definition emit (e : Effect) : M unit := fun w => (Ok tt, perform e w).

Definition log_change (change_message : ChangeMessage) : M unit :=
  emit (Logged change_message).

Definition print (p : Printout) : M unit := emit (Printed p).

Definition load_previous_data : M (option DataFrame) :=
  fun w => (Ok (last_data_pkl w), w).

Definition save_current_data (df : DataFrame) : M unit :=
  emit (PickleDumped df).

Definition load_previous_hash : M (option pystr) :=
  fun w => (Ok (option_map strip (last_hash_txt w)), w).

(** The hash file is opened as text and holds what the program writes to
    it, a hexadecimal digest; [last_hash_txt] is its text as a later
    [f.read()] returns it. *)
Definition save_current_hash (h : pystr) : M unit := emit (HashWritten h).

(** [", ".join(to_addrs)] wants every item to be a [str]. *)
Fixpoint str_items (l : list value) : option (list pystr) :=
  match l with
  | [] => Some []
  | VStr s :: l' => option_map (cons s) (str_items l')
  | _ :: _ => None
  end.

(** The [with smtplib.SMTP(...)] block: one session with the relay. *)
Definition smtp_session (smtp : Transport) (msg : Email) : M bool :=
  fun w =>
    let delivered := smtp (journal w) msg in
    (Ok delivered, perform (Smtp msg delivered) w).

Definition send_email (smtp : Transport) (subject body : pystr)
    (to_addrs : list value) : M unit :=
  recipients <- or_raise TypeError (str_items to_addrs) ;;
  delivered <- smtp_session smtp
    {| subject := subject; body := body; to_addrs := recipients |} ;;
  if delivered then ret tt else print ErrorSendingEmail.

Definition ADMIN_EMAILS : list value :=
  [VStr (lit "admin1@yourdomain.com"); VStr (lit "admin2@yourdomain.com")].

(** ** The comparison block of [check_excel] *)

Definition compare_cell (df_current df_previous : DataFrame) (row col : nat)
  : M unit :=
  val_current <- or_raise IndexError (iat df_current row col) ;;
  val_previous <- or_raise IndexError (iat df_previous row col) ;;
  if py_ne val_current val_previous
  then log_change (CellChanged row col val_previous val_current)
  else ret tt.

Definition compare_row_by_row (df_current : DataFrame)
    (df_previous : option DataFrame) : M unit :=
  match df_previous with
  | Some df_previous =>
      (if shape_eqb (shape df_current) (shape df_previous) then ret tt
       else log_change (ShapeChanged (shape df_previous) (shape df_current))) ;;
      let min_rows := Nat.min (len df_current) (len df_previous) in
      let min_cols :=
        Nat.min (length (columns df_current)) (length (columns df_previous)) in
      for_ (range 0 min_rows) (fun row =>
        for_ (range 0 min_cols) (fun col =>
          compare_cell df_current df_previous row col)) ;;
      if (len df_previous <? len df_current)%nat then
        for_ (range (len df_previous) (len df_current)) (fun r =>
          record <- or_raise IndexError (iloc_to_dict df_current r) ;;
          log_change (RowAdded r record))
      else if (len df_current <? len df_previous)%nat then
        for_ (range (len df_current) (len df_previous)) (fun r =>
          record <- or_raise IndexError (iloc_to_dict df_previous r) ;;
          log_change (RowRemoved r record))
      else ret tt
  | None => log_change NoPreviousData
  end.

(** Part A of [check_excel]: an empty or missing stored hash is falsy. *)
Definition check_file_hash (current_hash : pystr) : M unit :=
  previous_hash <- load_previous_hash ;;
  match previous_hash with
  | Some (c :: h) =>
      if negb (pystr_eqb current_hash (c :: h))
      then log_change HashChanged ;; print HashWarning
      else ret tt
  | _ => ret tt
  end.

Section Issuance.

(** [str.lower()] on text that is not pure ASCII follows the Unicode case
    tables; they are left open. *)
Variable unicode_lower : pystr -> pystr.

Definition lower (s : pystr) : pystr :=
  if forallb is_ascii s then map ascii_lower s else unicode_lower s.

(** ** Part E of [check_excel]: reminders and escalations *)

Definition yes : pystr := lit "yes".

(** [str(v).strip().lower()]. *)
Definition normalize (v : value) : pystr := lower (strip (py_str v)).

(** [returned_flag == "yes"] for a cell of the Returned column. *)
Definition is_returned (v : value) : bool := pystr_eqb (normalize v) yes.

(** The condition of the first [if] of the loop body. *)
Definition due_tomorrow (return_date_only tomorrow : date)
    (returned_flag : pystr) : bool :=
  (return_date_only =? tomorrow) && negb (pystr_eqb returned_flag yes).

(** The condition of the second [if] of the loop body. *)
Definition past_due (return_date_only today : date)
    (returned_flag : pystr) : bool :=
  (return_date_only <? today) && negb (pystr_eqb returned_flag yes).

(** Which of the two branches of the loop body a record enters. *)
Inductive Classification : Type :=
| NoNotification
| ReminderDue
| Overdue
| ReminderAndOverdue.

Definition classify (today tomorrow return_date_only : date)
    (returned_flag : pystr) : Classification :=
  match due_tomorrow return_date_only tomorrow returned_flag,
        past_due return_date_only today returned_flag with
  | false, false => NoNotification
  | true, false => ReminderDue
  | false, true => Overdue
  | true, true => ReminderAndOverdue
  end.

(** [row[key]]. *)
Definition getitem (row : Row) (key : string) : M value :=
  or_raise (KeyError (lit key)) (lookup (lit key) (index row) (cells row)).

(** [v.date()], which only a [Timestamp] has. *)
Definition date_method (v : value) : M date :=
  match v with
  | VTimestamp ns => ret (timestamp_date ns)
  | _ => raise AttributeError
  end.

(** [d + timedelta(days=n)]. *)
Definition date_add_days (d : date) (n : Z) : M date :=
  if (1 <=? d + n) && (d + n <=? date_max) then ret (d + n)
  else raise OverflowError.

Definition nl : pystr := [10%N].

Definition reminder_body (name roll_number : value) : pystr :=
  lit "Hello " ++ py_str name ++ lit " (Roll No: " ++ py_str roll_number
  ++ lit ")," ++ nl ++ nl
  ++ lit "This is a reminder that your item is due tomorrow. "
  ++ lit "Please ensure you return it on time." ++ nl ++ nl
  ++ lit "Regards," ++ nl ++ lit "Issuance System".

Definition overdue_body (roll_number : value) : pystr :=
  lit "Roll Number " ++ py_str roll_number
  ++ lit " has failed to return the item." ++ nl ++ nl
  ++ lit "They are now eligible for a no-due fine." ++ nl ++ nl
  ++ lit "Regards," ++ nl ++ lit "Issuance System".

Definition loop_body (smtp : Transport) (today tomorrow : date) (row : Row)
  : M unit :=
  return_date <- getitem row "Date of Return" ;;
  returned <- getitem row "Returned" ;;
  let returned_flag := normalize returned in
  roll_number <- getitem row "Roll Number" ;;
  email <- getitem row "Email" ;;
  if isnull return_date then ret tt
  else
    return_date_only <- date_method return_date ;;
    (if due_tomorrow return_date_only tomorrow returned_flag then
       name <- getitem row "Name" ;;
       send_email smtp (lit "Return Due Tomorrow")
         (reminder_body name roll_number) [email]
     else ret tt) ;;
    if past_due return_date_only today returned_flag then
      send_email smtp (lit "Failure of Returning")
        (overdue_body roll_number) ADMIN_EMAILS
    else ret tt.

Definition check_dates (smtp : Transport) (today : date)
    (df_current : DataFrame) : M unit :=
  tomorrow <- date_add_days today 1 ;;
  for_ (iterrows df_current) (loop_body smtp today tomorrow).

(** ** [check_excel]

    The file hash, the frame and the date of the day come from outside.
    The frame is [df_current] as it stands after the two assignments that
    coerce its date columns: a sheet without a Date of Issuing or a Date of
    Return column makes these assignments raise [KeyError] right after part
    A, and gives no such frame.  So [df_current] has both columns (see
    [has_date_columns]). *)
Definition check_excel (smtp : Transport) (current_hash : pystr)
    (df_current : DataFrame) (today : date) : M unit :=
  check_file_hash current_hash ;;
  df_previous <- load_previous_data ;;
  compare_row_by_row df_current df_previous ;;
  save_current_data df_current ;;
  save_current_hash current_hash ;;
  check_dates smtp today df_current.

(** ** Reading a journal *)

Definition change_log (j : list Effect) : list ChangeMessage :=
  flat_map (fun e => match e with Logged m => [m] | _ => [] end) j.

Definition outbox (j : list Effect) : list Email :=
  flat_map (fun e => match e with Smtp msg _ => [msg] | _ => [] end) j.

Definition is_mail (e : Effect) : bool :=
  match e with Smtp _ _ => true | _ => false end.

Definition is_store_write (e : Effect) : bool :=
  match e with PickleDumped _ | HashWritten _ => true | _ => false end.

Definition is_logged (e : Effect) : bool :=
  match e with Logged _ => true | _ => false end.

(** ** The sheet the program expects *)

Definition sheet_columns : list pystr :=
  map lit ["Name"; "Roll Number"; "RFID Tag"; "Date of Issuing";
           "Date of Return"; "Email"; "Returned"]%string.

Definition sheet_row (name roll_number tag issued due email returned : value)
  : Row :=
  {| index := sheet_columns;
     cells := [name; roll_number; tag; issued; due; email; returned] |}.

(** A world with nothing stored and nothing done yet. *)
Definition first_world : World :=
  {| last_data_pkl := None; last_hash_txt := None; journal := [] |}.

(** A sheet of one record whose return date did not parse. *)
Definition undated_sheet : DataFrame :=
  {| columns := sheet_columns;
     values := [[VStr (lit "Asha"); VInt 101; VStr (lit "T-1");
                 VTimestamp (19782 * ns_per_day); VNaT;
                 VStr (lit "asha@example.org"); VStr (lit "no")]];
     rectangular := eq_refl |}.

(** A sheet of one record with both dates, and the same sheet after a
    second record was appended. *)
Definition dated_sheet : DataFrame :=
  {| columns := sheet_columns;
     values := [[VStr (lit "Asha"); VInt 101; VStr (lit "T-1");
                 VTimestamp (19782 * ns_per_day);
                 VTimestamp (19789 * ns_per_day);
                 VStr (lit "asha@example.org"); VStr (lit "no")]];
     rectangular := eq_refl |}.

Definition grown_sheet : DataFrame :=
  {| columns := sheet_columns;
     values := [[VStr (lit "Asha"); VInt 101; VStr (lit "T-1");
                 VTimestamp (19782 * ns_per_day);
                 VTimestamp (19789 * ns_per_day);
                 VStr (lit "asha@example.org"); VStr (lit "no")];
                [VStr (lit "Ravi"); VInt 102; VStr (lit "T-2");
                 VTimestamp (19783 * ns_per_day);
                 VTimestamp (19790 * ns_per_day);
                 VStr (lit "ravi@example.org"); VStr (lit "Yes")]];
     rectangular := eq_refl |}.

(** ** Predicates on text, journals and computations *)

(** An ASCII code point that is neither [Y] nor [y]. *)
Definition plain (c : N) : bool :=
  ((c <? 128) && negb (c =? 89) && negb (c =? 121))%N.

(** The effects [es] performed one after the other. *)
Definition perform_all (es : list Effect) (w : World) : World :=
  fold_left (fun w e => perform e w) es w.

(** [emits P m]: whatever [m] returns or raises, all it did was perform
    effects that satisfy [P]. *)
Definition emits {A} (P : Effect -> bool) (m : M A) : Prop :=
  forall w, exists es, snd (m w) = perform_all es w /\ forallb P es = true.

(** [completes P m]: moreover [m] returns normally. *)
Definition completes {A} (P : Effect -> bool) (m : M A) : Prop :=
  forall w, exists a es,
    m w = (Ok a, perform_all es w) /\ forallb P es = true.

(** What parts A and C may do: append to the change log, print the hash
    warning. *)
Definition is_audit (e : Effect) : bool :=
  match e with
  | Logged _ | Printed HashWarning => true
  | _ => false
  end.

(** What part E may do: hold a mail session, print a send error. *)
Definition is_delivery (e : Effect) : bool :=
  match e with
  | Smtp _ _ | Printed ErrorSendingEmail => true
  | _ => false
  end.

(** Two worlds that differ at most in how mail sessions ended. *)
Definition similar (w1 w2 : World) : Prop :=
  last_data_pkl w1 = last_data_pkl w2
  /\ last_hash_txt w1 = last_hash_txt w2
  /\ outbox (journal w1) = outbox (journal w2)
  /\ change_log (journal w1) = change_log (journal w2).

(** Two computations that, from similar worlds, end the same way in
    similar worlds. *)
Definition agree {A} (m1 m2 : M A) : Prop :=
  forall w1 w2, similar w1 w2 ->
    fst (m1 w1) = fst (m2 w2) /\ similar (snd (m1 w1)) (snd (m2 w2)).

(** ** Text lemmas *)

Lemma pystr_eqb_eq (a b : pystr) : pystr_eqb a b = true <-> a = b.
Proof.
  revert b; induction a as [|x a IH]; intros [|y b]; simpl; split;
    try congruence; try reflexivity.
  - intros H. apply andb_true_iff in H as [Hx Hab].
    apply N.eqb_eq in Hx. apply IH in Hab. congruence.
  - intros H. injection H as -> ->.
    rewrite N.eqb_refl. simpl. now apply IH.
Qed.

Lemma pystr_eqb_refl (a : pystr) : pystr_eqb a a = true.
Proof. now apply pystr_eqb_eq. Qed.

Lemma forallb_rev {A} (P : A -> bool) (l : list A) :
  forallb P l = true -> forallb P (rev l) = true.
Proof.
  rewrite !forallb_forall. intros H x Hx. apply H. now apply in_rev.
Qed.

Lemma forallb_lstrip (P : N -> bool) (s : pystr) :
  forallb P s = true -> forallb P (lstrip s) = true.
Proof.
  induction s as [|c s IH]; simpl; [easy|].
  intros H. destruct (is_space c); [|exact H].
  apply andb_true_iff in H as [_ H]. now apply IH.
Qed.

Lemma forallb_strip (P : N -> bool) (s : pystr) :
  forallb P s = true -> forallb P (strip s) = true.
Proof.
  intros H. unfold strip, rstrip.
  now apply forallb_rev, forallb_lstrip, forallb_rev, forallb_lstrip.
Qed.

Lemma plain_is_ascii (s : pystr) :
  forallb plain s = true -> forallb is_ascii s = true.
Proof.
  rewrite !forallb_forall. intros H c Hc. specialize (H c Hc).
  unfold plain in H. unfold is_ascii.
  apply andb_true_iff in H as [H _]. now apply andb_true_iff in H as [H _].
Qed.

Lemma ascii_lower_y (c : N) : plain c = true -> ascii_lower c <> 121%N.
Proof.
  unfold plain, ascii_lower. intros H.
  apply andb_true_iff in H as [H H121]. apply andb_true_iff in H as [_ H89].
  apply negb_true_iff, N.eqb_neq in H121, H89.
  destruct ((65 <=? c) && (c <=? 90))%N; lia.
Qed.

(** Text without a [y] in either case never normalises to ["yes"]. *)
Lemma plain_not_yes (s : pystr) :
  forallb plain s = true -> pystr_eqb (lower (strip s)) yes = false.
Proof.
  intros H. apply forallb_strip in H.
  unfold lower. rewrite (plain_is_ascii _ H).
  destruct (strip s) as [|c t]; [reflexivity|].
  simpl in H. apply andb_true_iff in H as [Hc _].
  apply ascii_lower_y in Hc. simpl.
  apply N.eqb_neq in Hc. now rewrite Hc.
Qed.

Lemma plain_digit (d : Z) : plain (digit d) = true.
Proof.
  unfold plain, digit.
  pose proof (Z.mod_pos_bound d 10 ltac:(lia)) as Hd.
  assert (Hk : (Z.to_N (d mod 10) < 10)%N) by lia.
  apply andb_true_iff; split; [apply andb_true_iff; split|].
  - apply N.ltb_lt. lia.
  - apply negb_true_iff, N.eqb_neq. lia.
  - apply negb_true_iff, N.eqb_neq. lia.
Qed.

Lemma plain_pad2 (n : Z) : forallb plain (pad2 n) = true.
Proof. unfold pad2. simpl. now rewrite !plain_digit. Qed.

Lemma plain_pad3 (n : Z) : forallb plain (pad3 n) = true.
Proof. unfold pad3. simpl. now rewrite !plain_digit. Qed.

Lemma plain_pad4 (n : Z) : forallb plain (pad4 n) = true.
Proof. unfold pad4, pad3. simpl. now rewrite !plain_digit. Qed.

Lemma plain_uint (d : Decimal.uint) :
  forallb plain (lit (NilEmpty.string_of_uint d)) = true.
Proof. induction d; simpl; auto. Qed.

Lemma plain_int_str (z : Z) : forallb plain (int_str z) = true.
Proof.
  assert (H : forall d, forallb plain (lit (NilZero.string_of_uint d)) = true).
  { intros d. pose proof (plain_uint d) as Hd.
    destruct d; try exact Hd; reflexivity. }
  unfold int_str, NilZero.string_of_int.
  destruct (Z.to_int z) as [d|d]; [apply H|].
  change (plain 45 && forallb plain (lit (NilZero.string_of_uint d)) = true).
  now rewrite H.
Qed.

Lemma plain_timestamp_str (ns : Z) : forallb plain (timestamp_str ns) = true.
Proof.
  unfold timestamp_str.
  destruct (civil_from_days (ns / ns_per_day)) as [[y m] d].
  repeat (rewrite forallb_app; apply andb_true_iff; split);
    try apply plain_pad2; try apply plain_pad4; try reflexivity.
  destruct (_ =? 0); [reflexivity|].
  destruct (_ =? 0);
    repeat (rewrite forallb_app; apply andb_true_iff; split);
    try apply plain_pad3; reflexivity.
Qed.

Lemma plain_py_str (v : value) :
  (forall s, v <> VStr s) -> forallb plain (py_str v) = true.
Proof.
  destruct v as [s|z|[|]| |ns|]; intros H; cbn [py_str];
    try reflexivity.
  - now destruct (H s).
  - apply plain_int_str.
  - apply plain_timestamp_str.
Qed.

(** ** The two conditions of the loop body *)

Lemma is_returned_str (s : pystr) :
  is_returned (VStr s) = true <-> lower (strip s) = yes.
Proof. unfold is_returned, normalize. simpl. apply pystr_eqb_eq. Qed.

Lemma is_returned_other (v : value) :
  (forall s, v <> VStr s) -> is_returned v = false.
Proof.
  intros H. unfold is_returned, normalize.
  now apply plain_not_yes, plain_py_str.
Qed.

Lemma due_tomorrow_iff (d tomorrow : date) (v : value) :
  due_tomorrow d tomorrow (normalize v) = true
  <-> d = tomorrow /\ is_returned v = false.
Proof.
  unfold due_tomorrow, is_returned.
  rewrite andb_true_iff, Z.eqb_eq, negb_true_iff. tauto.
Qed.

Lemma past_due_iff (d today : date) (v : value) :
  past_due d today (normalize v) = true <-> d < today /\ is_returned v = false.
Proof.
  unfold past_due, is_returned.
  rewrite andb_true_iff, Z.ltb_lt, negb_true_iff. tauto.
Qed.

Lemma not_both (d today : date) (flag : pystr) :
  due_tomorrow d (today + 1) flag && past_due d today flag = false.
Proof.
  unfold due_tomorrow, past_due.
  destruct (d =? today + 1) eqn:E1; [|reflexivity].
  destruct (d <? today) eqn:E2; [|now rewrite andb_false_r].
  apply Z.eqb_eq in E1. apply Z.ltb_lt in E2. lia.
Qed.

(** C4: the Returned cell is turned into text, trimmed and lower-cased,
    and then compared with ["yes"]: "yes", "YES", "Yes" and " yes " all count
    as returned; a cell counts as returned exactly when it is text whose
    trimmed, lower-cased form is "yes", so an empty cell and every other
    token count as not returned; and a returned record enters neither branch
    of the loop body. *)
Theorem returned_flag_normalized :
  is_returned (VStr (lit "yes")) = true /\
  is_returned (VStr (lit "YES")) = true /\
  is_returned (VStr (lit "Yes")) = true /\
  is_returned (VStr (lit " yes ")) = true /\
  (forall v, is_returned v = true
             <-> exists s, v = VStr s /\ lower (strip s) = yes) /\
  is_returned VNaN = false /\
  (forall today tomorrow d v,
      is_returned v = true ->
      classify today tomorrow d (normalize v) = NoNotification).
Proof.
  do 4 (split; [reflexivity|]).
  split; [intros v; split|split; [reflexivity|]].
  - intros H. destruct v as [s| | | | |];
      try solve [rewrite is_returned_other in H; [discriminate|intros ? [=]]].
    exists s. split; [reflexivity|]. now apply is_returned_str.
  - intros [s [-> H]]. now apply is_returned_str.
  - intros today tomorrow d v H. unfold classify, due_tomorrow, past_due.
    unfold is_returned in H. rewrite H. simpl. now rewrite !andb_false_r.
Qed.

(** ** Sending *)

Lemma outbox_app (a b : list Effect) : outbox (a ++ b) = outbox a ++ outbox b.
Proof. apply flat_map_app. Qed.

Lemma change_log_app (a b : list Effect) :
  change_log (a ++ b) = change_log a ++ change_log b.
Proof. apply flat_map_app. Qed.

(** What one call of [send_email] does: it raises before any session when
    an address is not text; otherwise it holds one session and, when the
    session fails, prints the error and returns normally. *)
Lemma send_email_run (smtp : Transport) (subject body : pystr)
    (to_addrs : list value) (w : World) :
  match str_items to_addrs with
  | None => send_email smtp subject body to_addrs w = (Raise TypeError, w)
  | Some recipients =>
      let msg :=
        {| subject := subject; body := body; to_addrs := recipients |} in
      send_email smtp subject body to_addrs w
      = (Ok tt,
         if smtp (journal w) msg then perform (Smtp msg true) w
         else perform (Printed ErrorSendingEmail) (perform (Smtp msg false) w))
  end.
Proof.
  unfold send_email, bind, or_raise, smtp_session.
  destruct (str_items to_addrs) as [recipients|]; [|reflexivity].
  simpl. now destruct (smtp (journal w) _).
Qed.

Lemma send_email_outbox (smtp : Transport) (subject body : pystr)
    (to_addrs : list value) (w : World) :
  exists sent,
    outbox (journal (snd (send_email smtp subject body to_addrs w)))
    = outbox (journal w) ++ sent
    /\ (length sent <= 1)%nat.
Proof.
  pose proof (send_email_run smtp subject body to_addrs w) as H.
  destruct (str_items to_addrs) as [recipients|]; cbv zeta in H; rewrite H.
  - exists [{| subject := subject; body := body; to_addrs := recipients |}].
    split; [|simpl; lia].
    destruct (smtp (journal w) _); simpl; rewrite ?outbox_app; simpl;
      now rewrite ?app_nil_r.
  - exists []. simpl. rewrite app_nil_r. split; [reflexivity|lia].
Qed.

(** [row[key]] on a row of the expected sheet, for the five keys the loop
    body reads. *)
Lemma getitem_sheet_row
    (name roll_number tag issued due email returned : value) :
  let row := sheet_row name roll_number tag issued due email returned in
  getitem row "Date of Return" = ret due
  /\ getitem row "Returned" = ret returned
  /\ getitem row "Roll Number" = ret roll_number
  /\ getitem row "Email" = ret email
  /\ getitem row "Name" = ret name.
Proof. repeat split; reflexivity. Qed.

(** On a row of the expected sheet whose return date is present, the loop
    body does what the classification of the row says. *)
Lemma loop_body_sheet_row (smtp : Transport) (today tomorrow : date)
    (name roll_number tag issued email returned : value) (ns : Z) (w : World) :
  loop_body smtp today tomorrow
    (sheet_row name roll_number tag issued (VTimestamp ns) email returned) w
  = match classify today tomorrow (timestamp_date ns) (normalize returned) with
    | NoNotification => (Ok tt, w)
    | ReminderDue =>
        send_email smtp (lit "Return Due Tomorrow")
          (reminder_body name roll_number) [email] w
    | Overdue =>
        send_email smtp (lit "Failure of Returning")
          (overdue_body roll_number) ADMIN_EMAILS w
    | ReminderAndOverdue =>
        (send_email smtp (lit "Return Due Tomorrow")
           (reminder_body name roll_number) [email] ;;
         send_email smtp (lit "Failure of Returning")
           (overdue_body roll_number) ADMIN_EMAILS) w
    end.
Proof.
  destruct (getitem_sheet_row name roll_number tag issued (VTimestamp ns)
              email returned) as (Hdue & Hret & Hroll & Hemail & Hname).
  unfold loop_body, classify, bind.
  rewrite Hdue, Hret, Hroll, Hemail. cbn [ret isnull date_method].
  destruct (due_tomorrow _ _ _), (past_due _ _ _);
    rewrite ?Hname; cbn [ret]; try reflexivity.
  now destruct (send_email _ _ _ _ w) as [[[]|e] w'].
Qed.

Ltac nothing_sent :=
  exists []; simpl; rewrite app_nil_r; split; [reflexivity|lia].

(** C10: today + 1 and a day before today are never the same day, so the
    two conditions of the loop body exclude each other and one pass of the
    loop body over any record hands the relay at most one message. *)
Theorem at_most_one_notification (smtp : Transport) (today : date)
    (row : Row) (w : World) :
  (forall d flag,
      due_tomorrow d (today + 1) flag && past_due d today flag = false) /\
  exists sent,
    outbox (journal (snd (loop_body smtp today (today + 1) row w)))
    = outbox (journal w) ++ sent
    /\ (length sent <= 1)%nat.
Proof.
  split; [intros d flag; apply not_both|].
  unfold loop_body, bind, getitem, or_raise.
  destruct (lookup (lit "Date of Return") _ _) as [return_date|];
    [|nothing_sent].
  destruct (lookup (lit "Returned") _ _) as [returned|]; [|nothing_sent].
  destruct (lookup (lit "Roll Number") _ _) as [roll_number|];
    [|nothing_sent].
  destruct (lookup (lit "Email") _ _) as [email|]; [|nothing_sent].
  cbn [ret raise].
  destruct (isnull return_date); [nothing_sent|].
  destruct return_date as [| | | |ns|]; cbn [date_method ret raise];
    try nothing_sent.
  pose proof (not_both (timestamp_date ns) today (normalize returned)) as X.
  destruct (due_tomorrow _ _ _), (past_due _ _ _); try discriminate X.
  - destruct (lookup (lit "Name") _ _) as [name|]; [|nothing_sent].
    cbn [ret].
    pose proof (send_email_outbox smtp (lit "Return Due Tomorrow")
                  (reminder_body name roll_number) [email] w) as H.
    destruct (send_email _ _ _ _ w) as [[[]|e] w']; exact H.
  - apply send_email_outbox.
  - nothing_sent.
Qed.

Lemma overdue_body_mentions (roll_number : value) :
  exists before after,
    overdue_body roll_number = before ++ py_str roll_number ++ after.
Proof. unfold overdue_body. eexists. eexists. reflexivity. Qed.

(** C9: on a row of the expected sheet, a record classified ReminderDue
    makes the loop body call [send_email] with the record's own Email cell
    as the only recipient, and that address is the whole recipient list of
    the message handed to the relay; a record classified Overdue makes it
    call [send_email] with [ADMIN_EMAILS], whatever the Email cell holds,
    the message goes to the two administrator addresses, and its body
    contains the text of the record's Roll Number. *)
Theorem notification_recipients (smtp : Transport) (today : date)
    (name roll_number tag issued email returned : value) (ns : Z) (w : World) :
  let row :=
    sheet_row name roll_number tag issued (VTimestamp ns) email returned in
  let c :=
    classify today (today + 1) (timestamp_date ns) (normalize returned) in
  (c = ReminderDue ->
   loop_body smtp today (today + 1) row w
   = send_email smtp (lit "Return Due Tomorrow")
       (reminder_body name roll_number) [email] w
   /\ forall contact, email = VStr contact ->
      outbox (journal (snd (loop_body smtp today (today + 1) row w)))
      = outbox (journal w)
        ++ [{| subject := lit "Return Due Tomorrow";
               body := reminder_body name roll_number;
               to_addrs := [contact] |}]) /\
  (c = Overdue ->
   loop_body smtp today (today + 1) row w
   = send_email smtp (lit "Failure of Returning")
       (overdue_body roll_number) ADMIN_EMAILS w
   /\ outbox (journal (snd (loop_body smtp today (today + 1) row w)))
      = outbox (journal w)
        ++ [{| subject := lit "Failure of Returning";
               body := overdue_body roll_number;
               to_addrs := [lit "admin1@yourdomain.com";
                            lit "admin2@yourdomain.com"] |}]
   /\ exists before after,
        overdue_body roll_number = before ++ py_str roll_number ++ after).
Proof.
  intros row c. subst row c.
  split; intros Hc; rewrite loop_body_sheet_row, Hc;
    (split; [reflexivity|]).
  - intros contact ->.
    pose proof (send_email_run smtp (lit "Return Due Tomorrow")
                  (reminder_body name roll_number) [VStr contact] w) as H.
    cbn [str_items option_map] in H. cbv zeta in H. rewrite H.
    destruct (smtp (journal w) _); simpl; rewrite ?outbox_app; simpl;
      now rewrite ?app_nil_r.
  - split; [|apply overdue_body_mentions].
    pose proof (send_email_run smtp (lit "Failure of Returning")
                  (overdue_body roll_number) ADMIN_EMAILS w) as H.
    cbn [str_items option_map ADMIN_EMAILS] in H. cbv zeta in H. rewrite H.
    destruct (smtp (journal w) _); simpl; rewrite ?outbox_app; simpl;
      now rewrite ?app_nil_r.
Qed.

(** ** What a computation leaves in the journal *)

Lemma perform_all_app (a b : list Effect) (w : World) :
  perform_all (a ++ b) w = perform_all b (perform_all a w).
Proof. apply fold_left_app. Qed.

Lemma journal_perform_all (es : list Effect) (w : World) :
  journal (perform_all es w) = journal w ++ es.
Proof.
  revert w; induction es as [|e es IH]; intros w; simpl.
  - now rewrite app_nil_r.
  - rewrite IH. simpl. now rewrite <- app_assoc.
Qed.

Lemma stores_perform_all (es : list Effect) (w : World) :
  forallb (fun e => negb (is_store_write e)) es = true ->
  last_data_pkl (perform_all es w) = last_data_pkl w
  /\ last_hash_txt (perform_all es w) = last_hash_txt w.
Proof.
  revert w; induction es as [|e es IH]; intros w H; simpl; [easy|].
  simpl in H. apply andb_true_iff in H as [He H].
  destruct (IH (perform e w) H) as [-> ->].
  now destruct e.
Qed.

Lemma completes_emits {A} P (m : M A) : completes P m -> emits P m.
Proof. intros H w. destruct (H w) as (a & es & -> & Hes). now exists es. Qed.

Lemma emits_weaken {A} (P Q : Effect -> bool) (m : M A) :
  (forall e, P e = true -> Q e = true) -> emits P m -> emits Q m.
Proof.
  intros HPQ H w. destruct (H w) as (es & Hw & Hes). exists es.
  split; [exact Hw|]. rewrite forallb_forall in *. auto.
Qed.

Lemma completes_weaken {A} (P Q : Effect -> bool) (m : M A) :
  (forall e, P e = true -> Q e = true) -> completes P m -> completes Q m.
Proof.
  intros HPQ H w. destruct (H w) as (a & es & Hw & Hes). exists a, es.
  split; [exact Hw|]. rewrite forallb_forall in *. auto.
Qed.

Lemma emits_ret {A} P (a : A) : emits P (ret a).
Proof. intros w. now exists []. Qed.

Lemma emits_raise {A} P (e : Exception) : emits P (@raise A e).
Proof. intros w. now exists []. Qed.

Lemma emits_or_raise {A} P (e : Exception) (o : option A) :
  emits P (or_raise e o).
Proof. destruct o; [apply emits_ret|apply emits_raise]. Qed.

Lemma emits_bind {A B} P (m : M A) (f : A -> M B) :
  emits P m -> (forall a, emits P (f a)) -> emits P (bind m f).
Proof.
  intros Hm Hf w. unfold bind.
  destruct (Hm w) as (es1 & Hw1 & Hes1).
  destruct (m w) as [[a|e] w1]; simpl in Hw1; subst w1.
  - destruct (Hf a (perform_all es1 w)) as (es2 & Hw2 & Hes2).
    exists (es1 ++ es2). rewrite perform_all_app, forallb_app, Hes1, Hes2.
    now split.
  - now exists es1.
Qed.

Lemma emits_for {A} P (l : list A) (body : A -> M unit) :
  (forall x, emits P (body x)) -> emits P (for_ l body).
Proof.
  intros H. induction l as [|x l IH]; simpl.
  - apply emits_ret.
  - apply emits_bind; auto.
Qed.

Lemma completes_ret {A} P (a : A) : completes P (ret a).
Proof. intros w. now exists a, []. Qed.

Lemma completes_emit P (e : Effect) : P e = true -> completes P (emit e).
Proof. intros H w. exists tt, [e]. simpl. now rewrite H. Qed.

Lemma completes_bind {A B} P (m : M A) (f : A -> M B) :
  completes P m -> (forall a, completes P (f a)) -> completes P (bind m f).
Proof.
  intros Hm Hf w. unfold bind.
  destruct (Hm w) as (a & es1 & -> & Hes1).
  destruct (Hf a (perform_all es1 w)) as (b & es2 & -> & Hes2).
  exists b, (es1 ++ es2). rewrite perform_all_app, forallb_app, Hes1, Hes2.
  now split.
Qed.

Lemma completes_for {A} P (l : list A) (body : A -> M unit) :
  (forall x, In x l -> completes P (body x)) -> completes P (for_ l body).
Proof.
  induction l as [|x l IH]; intros H; simpl.
  - apply completes_ret.
  - apply completes_bind; [apply H; now left|].
    intros _. apply IH. intros y Hy. apply H. now right.
Qed.

(** ** The comparison block never fails on frames *)

Lemma row_length (df : DataFrame) (r : nat) (cs : list value) :
  nth_error (values df) r = Some cs -> length cs = length (columns df).
Proof.
  intros H. apply nth_error_In in H.
  pose proof (rectangular df) as R. rewrite forallb_forall in R.
  now apply Nat.eqb_eq, R.
Qed.

Lemma iat_in_frame (df : DataFrame) (row col : nat) :
  (row < len df)%nat -> (col < length (columns df))%nat ->
  exists v, iat df row col = Some v.
Proof.
  intros Hr Hc. unfold iat, len in *.
  destruct (nth_error (values df) row) as [cs|] eqn:E.
  - rewrite <- (row_length _ _ _ E) in Hc.
    destruct (nth_error cs col) as [v|] eqn:E'; [now exists v|].
    apply nth_error_None in E'. lia.
  - apply nth_error_None in E. lia.
Qed.

Lemma iloc_in_frame (df : DataFrame) (r : nat) :
  (r < len df)%nat -> exists record, iloc_to_dict df r = Some record.
Proof.
  intros Hr. unfold iloc_to_dict, len in *.
  destruct (nth_error (values df) r) as [cs|] eqn:E.
  - now eexists.
  - apply nth_error_None in E. lia.
Qed.

Lemma in_range (a b x : nat) : In x (range a b) -> (a <= x < b)%nat.
Proof. unfold range. rewrite in_seq. lia. Qed.

Lemma completes_compare_cell (cur prev : DataFrame) (row col : nat) :
  (row < Nat.min (len cur) (len prev))%nat ->
  (col < Nat.min (length (columns cur)) (length (columns prev)))%nat ->
  completes is_logged (compare_cell cur prev row col).
Proof.
  intros Hr Hc. unfold compare_cell.
  destruct (iat_in_frame cur row col) as [a ->]; [lia|lia|].
  destruct (iat_in_frame prev row col) as [b ->]; [lia|lia|].
  cbn [or_raise].
  apply completes_bind; [apply completes_ret|intros a'].
  apply completes_bind; [apply completes_ret|intros b'].
  destruct (py_ne a' b'); [now apply completes_emit|apply completes_ret].
Qed.

Lemma completes_compare (cur : DataFrame) (prev : option DataFrame) :
  completes is_logged (compare_row_by_row cur prev).
Proof.
  destruct prev as [prev|]; [|now apply completes_emit].
  unfold compare_row_by_row.
  apply completes_bind.
  { destruct (shape_eqb _ _); [apply completes_ret|now apply completes_emit]. }
  intros _. cbv zeta. apply completes_bind.
  { apply completes_for. intros row Hrow. apply in_range in Hrow.
    apply completes_for. intros col Hcol. apply in_range in Hcol.
    apply completes_compare_cell; lia. }
  intros _.
  destruct (Nat.ltb_spec (len prev) (len cur)).
  - apply completes_for. intros r Hr. apply in_range in Hr.
    destruct (iloc_in_frame cur r) as [record ->]; [lia|].
    apply completes_bind; [apply completes_ret|intros record'].
    now apply completes_emit.
  - destruct (Nat.ltb_spec (len cur) (len prev)); [|apply completes_ret].
    apply completes_for. intros r Hr. apply in_range in Hr.
    destruct (iloc_in_frame prev r) as [record ->]; [lia|].
    apply completes_bind; [apply completes_ret|intros record'].
    now apply completes_emit.
Qed.

(** ** The phases of a run *)

Lemma completes_check_file_hash (current_hash : pystr) :
  completes is_audit (check_file_hash current_hash).
Proof.
  unfold check_file_hash. intros w. unfold bind, load_previous_hash.
  destruct (option_map strip (last_hash_txt w)) as [[|c h]|];
    try (now exists tt, []).
  destruct (negb _); [|now exists tt, []].
  now exists tt, [Logged HashChanged; Printed HashWarning].
Qed.

Lemma emits_send_email (smtp : Transport) (subject body : pystr)
    (to_addrs : list value) :
  emits is_delivery (send_email smtp subject body to_addrs).
Proof.
  intros w. pose proof (send_email_run smtp subject body to_addrs w) as H.
  destruct (str_items to_addrs) as [recipients|]; cbv zeta in H; rewrite H.
  - set (msg := {| subject := subject; body := body;
                   to_addrs := recipients |}).
    destruct (smtp (journal w) msg).
    + now exists [Smtp msg true].
    + now exists [Smtp msg false; Printed ErrorSendingEmail].
  - now exists [].
Qed.

Lemma emits_loop_body (smtp : Transport) (today tomorrow : date) (row : Row) :
  emits is_delivery (loop_body smtp today tomorrow row).
Proof.
  unfold loop_body, getitem.
  repeat (apply emits_bind; [apply emits_or_raise|intros ?]).
  destruct (isnull _); [apply emits_ret|].
  apply emits_bind.
  { destruct a; try apply emits_raise. apply emits_ret. }
  intros d. apply emits_bind.
  - destruct (due_tomorrow _ _ _); [|apply emits_ret].
    apply emits_bind; [apply emits_or_raise|intros ?].
    apply emits_send_email.
  - intros _. destruct (past_due _ _ _); [|apply emits_ret].
    apply emits_send_email.
Qed.

Lemma emits_check_dates (smtp : Transport) (today : date) (df : DataFrame) :
  emits is_delivery (check_dates smtp today df).
Proof.
  unfold check_dates. apply emits_bind.
  - unfold date_add_days. destruct (_ && _); [apply emits_ret|apply emits_raise].
  - intros tomorrow. apply emits_for. intros row. apply emits_loop_body.
Qed.

(** A run, phase by phase: parts A and C return normally and only write to
    the change log and the console, part D overwrites both stores, part E
    only deals with mail. *)
Lemma check_excel_phases (smtp : Transport) (current_hash : pystr)
    (df_current : DataFrame) (today : date) (w : World) :
  exists audit delivery,
    snd (check_excel smtp current_hash df_current today w)
    = perform_all delivery
        (perform (HashWritten current_hash)
           (perform (PickleDumped df_current) (perform_all audit w)))
    /\ forallb is_audit audit = true
    /\ forallb is_delivery delivery = true
    /\ (last_data_pkl w = None -> last_hash_txt w = None ->
        audit = [Logged NoPreviousData]).
Proof.
  unfold check_excel, bind.
  destruct (completes_check_file_hash current_hash w) as ([] & es1 & E1 & H1).
  assert (F : last_hash_txt w = None -> es1 = []).
  { intros Hh. revert E1. unfold check_file_hash, bind, load_previous_hash.
    rewrite Hh. simpl. intros [= Hw].
    apply (f_equal journal) in Hw. rewrite journal_perform_all in Hw.
    symmetry in Hw. rewrite <- (app_nil_r (journal w)) in Hw at 2.
    now apply app_inv_head in Hw. }
  rewrite E1. unfold load_previous_data at 1.
  assert (S1 : last_data_pkl (perform_all es1 w) = last_data_pkl w).
  { apply stores_perform_all. rewrite forallb_forall in *.
    intros e He. specialize (H1 e He). now destruct e. }
  destruct (completes_compare df_current (last_data_pkl (perform_all es1 w))
              (perform_all es1 w)) as ([] & es2 & E2 & H2).
  rewrite E2. unfold save_current_data, save_current_hash, emit.
  destruct (emits_check_dates smtp today df_current
              (perform (HashWritten current_hash)
                 (perform (PickleDumped df_current)
                    (perform_all es2 (perform_all es1 w)))))
    as (es3 & E3 & H3).
  exists (es1 ++ es2), es3. rewrite perform_all_app, E3.
  split; [reflexivity|]. split; [|split; [exact H3|]].
  - rewrite forallb_app, H1. simpl.
    rewrite forallb_forall in *. intros e He. specialize (H2 e He).
    now destruct e.
  - intros Hd Hh. rewrite (F Hh) in *. simpl in *.
    rewrite Hd in E2. simpl in E2. injection E2 as E2.
    apply (f_equal journal) in E2. rewrite journal_perform_all in E2.
    simpl in E2. now apply app_inv_head in E2.
Qed.

Lemma audit_not_mail (es : list Effect) :
  forallb is_audit es = true ->
  forallb (fun e => negb (is_mail e)) es = true.
Proof.
  rewrite !forallb_forall. intros H e He. specialize (H e He). now destruct e.
Qed.

Lemma delivery_not_store_write (es : list Effect) :
  forallb is_delivery es = true ->
  forallb (fun e => negb (is_store_write e)) es = true.
Proof.
  rewrite !forallb_forall. intros H e He. specialize (H e He). now destruct e.
Qed.

Lemma delivery_not_logged (es : list Effect) :
  forallb is_delivery es = true -> change_log es = [].
Proof.
  induction es as [|e es IH]; simpl; [reflexivity|].
  intros H. apply andb_true_iff in H as [He H]. rewrite (IH H).
  now destruct e.
Qed.

(** C6: in every run, whatever the relay does and whether or not the loop
    over the records runs to its end, the journal of the run reads: effects
    none of which is a mail session, then the snapshot store and the hash
    store overwritten with the current frame and hash, then effects none of
    which writes a store; so at the end of the run both stores hold the
    current data. *)
Theorem stores_written_before_notifications (smtp : Transport)
    (current_hash : pystr) (df_current : DataFrame) (today : date)
    (w : World) :
  let w' := snd (check_excel smtp current_hash df_current today w) in
  exists before after,
    journal w'
    = journal w ++ before
      ++ [PickleDumped df_current; HashWritten current_hash] ++ after
    /\ forallb (fun e => negb (is_mail e)) before = true
    /\ forallb (fun e => negb (is_store_write e)) after = true
    /\ last_data_pkl w' = Some df_current
    /\ last_hash_txt w' = Some current_hash.
Proof.
  cbv zeta.
  destruct (check_excel_phases smtp current_hash df_current today w)
    as (audit & delivery & -> & Ha & Hd & _).
  exists audit, delivery.
  pose proof (delivery_not_store_write _ Hd) as Hs.
  split; [|split; [now apply audit_not_mail|split; [exact Hs|]]].
  - rewrite journal_perform_all. simpl. rewrite journal_perform_all.
    now rewrite <- !app_assoc.
  - now destruct (stores_perform_all delivery
                    (perform (HashWritten current_hash)
                       (perform (PickleDumped df_current)
                          (perform_all audit w))) Hs) as [-> ->].
Qed.

(** C8: on a run that finds neither a stored snapshot nor a stored hash,
    the change log grows by exactly one line, the "no previous data" marker,
    and at the end of the run the snapshot store holds the current frame and
    the hash store the current hash. *)
Theorem first_run (smtp : Transport) (current_hash : pystr)
    (df_current : DataFrame) (today : date) (w : World) :
  last_data_pkl w = None ->
  last_hash_txt w = None ->
  let w' := snd (check_excel smtp current_hash df_current today w) in
  change_log (journal w') = change_log (journal w) ++ [NoPreviousData]
  /\ last_data_pkl w' = Some df_current
  /\ last_hash_txt w' = Some current_hash.
Proof.
  intros Hd Hh. cbv zeta.
  destruct (check_excel_phases smtp current_hash df_current today w)
    as (audit & delivery & -> & _ & Hdel & Hfirst).
  rewrite (Hfirst Hd Hh).
  pose proof (delivery_not_store_write _ Hdel) as Hs.
  split.
  - rewrite journal_perform_all. simpl.
    rewrite !change_log_app, (delivery_not_logged _ Hdel). simpl.
    now rewrite !app_nil_r.
  - now destruct (stores_perform_all delivery
                    (perform (HashWritten current_hash)
                       (perform (PickleDumped df_current)
                          (perform_all [Logged NoPreviousData] w))) Hs)
      as [-> ->].
Qed.

(** ** Two relays, one run *)

Lemma similar_refl (w : World) : similar w w.
Proof. now repeat split. Qed.

Lemma similar_perform_mail (w1 w2 : World) (msg : Email) (b1 b2 : bool) :
  similar w1 w2 -> similar (perform (Smtp msg b1) w1) (perform (Smtp msg b2) w2).
Proof.
  intros (Hd & Hh & Ho & Hc). repeat split; simpl; try assumption.
  - now rewrite !outbox_app, Ho.
  - now rewrite !change_log_app, Hc.
Qed.

Lemma similar_perform_print_l (w1 w2 : World) (p : Printout) :
  similar w1 w2 -> similar (perform (Printed p) w1) w2.
Proof.
  intros (Hd & Hh & Ho & Hc). repeat split; simpl; try assumption.
  - rewrite outbox_app, Ho. simpl. now rewrite app_nil_r.
  - rewrite change_log_app, Hc. simpl. now rewrite app_nil_r.
Qed.

Lemma similar_sym (w1 w2 : World) : similar w1 w2 -> similar w2 w1.
Proof. intros (Hd & Hh & Ho & Hc). now repeat split. Qed.

Lemma agree_ret {A} (a : A) : agree (ret a) (ret a).
Proof. intros w1 w2 H. now split. Qed.

Lemma agree_raise {A} (e : Exception) : agree (@raise A e) (raise e).
Proof. intros w1 w2 H. now split. Qed.

Lemma agree_or_raise {A} (e : Exception) (o : option A) :
  agree (or_raise e o) (or_raise e o).
Proof. destruct o; [apply agree_ret|apply agree_raise]. Qed.

Lemma agree_bind {A B} (m1 m2 : M A) (f1 f2 : A -> M B) :
  agree m1 m2 -> (forall a, agree (f1 a) (f2 a)) ->
  agree (bind m1 f1) (bind m2 f2).
Proof.
  intros Hm Hf w1 w2 H. unfold bind.
  destruct (Hm w1 w2 H) as [Hr Hw].
  destruct (m1 w1) as [[a1|e1] w1'], (m2 w2) as [[a2|e2] w2'];
    simpl in Hr, Hw; try discriminate.
  - injection Hr as ->. now apply Hf.
  - injection Hr as ->. now split.
Qed.

Lemma agree_for {A} (l : list A) (body1 body2 : A -> M unit) :
  (forall x, agree (body1 x) (body2 x)) ->
  agree (for_ l body1) (for_ l body2).
Proof.
  intros H. induction l as [|x l IH]; simpl.
  - apply agree_ret.
  - apply agree_bind; auto.
Qed.

Lemma agree_send_email (smtp1 smtp2 : Transport) (subject body : pystr)
    (to_addrs : list value) :
  agree (send_email smtp1 subject body to_addrs)
        (send_email smtp2 subject body to_addrs).
Proof.
  intros w1 w2 H.
  pose proof (send_email_run smtp1 subject body to_addrs w1) as H1.
  pose proof (send_email_run smtp2 subject body to_addrs w2) as H2.
  destruct (str_items to_addrs) as [recipients|]; cbv zeta in H1, H2;
    rewrite H1, H2; simpl; [|now split].
  split; [reflexivity|].
  destruct (smtp1 (journal w1) _), (smtp2 (journal w2) _);
    repeat first [ apply similar_perform_print_l
                 | apply similar_sym, similar_perform_print_l, similar_sym
                 | apply similar_perform_mail ];
    exact H.
Qed.

Lemma agree_loop_body (smtp1 smtp2 : Transport) (today tomorrow : date)
    (row : Row) :
  agree (loop_body smtp1 today tomorrow row)
        (loop_body smtp2 today tomorrow row).
Proof.
  unfold loop_body, getitem.
  repeat (apply agree_bind; [apply agree_or_raise|intros ?]).
  destruct (isnull _); [apply agree_ret|].
  apply agree_bind.
  { destruct a; try apply agree_raise. apply agree_ret. }
  intros d. apply agree_bind.
  - destruct (due_tomorrow _ _ _); [|apply agree_ret].
    apply agree_bind; [apply agree_or_raise|intros ?].
    apply agree_send_email.
  - intros _. destruct (past_due _ _ _); [|apply agree_ret].
    apply agree_send_email.
Qed.

Lemma agree_check_dates (smtp1 smtp2 : Transport) (today : date)
    (df : DataFrame) :
  agree (check_dates smtp1 today df) (check_dates smtp2 today df).
Proof.
  unfold check_dates. apply agree_bind.
  - unfold date_add_days. destruct (_ && _); [apply agree_ret|apply agree_raise].
  - intros tomorrow. apply agree_for. intros row. apply agree_loop_body.
Qed.

Lemma agree_check_excel (smtp1 smtp2 : Transport) (current_hash : pystr)
    (df_current : DataFrame) (today : date) (w : World) :
  fst (check_excel smtp1 current_hash df_current today w)
  = fst (check_excel smtp2 current_hash df_current today w)
  /\ similar (snd (check_excel smtp1 current_hash df_current today w))
             (snd (check_excel smtp2 current_hash df_current today w)).
Proof.
  unfold check_excel, bind.
  destruct (check_file_hash current_hash w) as [[[]|e] w1];
    [|split; [reflexivity|apply similar_refl]].
  destruct (load_previous_data w1) as [[df_previous|e] w2];
    [|split; [reflexivity|apply similar_refl]].
  destruct (compare_row_by_row df_current df_previous w2) as [[[]|e] w3];
    [|split; [reflexivity|apply similar_refl]].
  destruct (save_current_data df_current w3) as [[[]|e] w4];
    [|split; [reflexivity|apply similar_refl]].
  destruct (save_current_hash current_hash w4) as [[[]|e] w5];
    [|split; [reflexivity|apply similar_refl]].
  apply agree_check_dates, similar_refl.
Qed.

(** ** The comparison block on particular pairs of frames *)

Lemma bind_ok {A B} (m : M A) (f : A -> M B) (w w' : World) (a : A) :
  m w = (Ok a, w') -> bind m f w = f a w'.
Proof. intros H. unfold bind. now rewrite H. Qed.

Lemma for_quiet {A} (l : list A) (body : A -> M unit) (w : World) :
  (forall x, In x l -> body x w = (Ok tt, w)) -> for_ l body w = (Ok tt, w).
Proof.
  induction l as [|x l IH]; intros H; simpl; [reflexivity|].
  unfold bind. rewrite (H x) by now left.
  apply IH. intros y Hy. apply H. now right.
Qed.

Lemma compare_cell_equal (cur prev : DataFrame) (row col : nat) (a b : value)
    (w : World) :
  iat cur row col = Some a -> iat prev row col = Some b ->
  py_ne a b = false ->
  compare_cell cur prev row col w = (Ok tt, w).
Proof.
  intros Ha Hb Hne. unfold compare_cell, bind. rewrite Ha, Hb. simpl.
  now rewrite Hne.
Qed.

Lemma compare_cell_differs (cur prev : DataFrame) (row col : nat)
    (a b : value) (w : World) :
  iat cur row col = Some a -> iat prev row col = Some b ->
  py_ne a b = true ->
  compare_cell cur prev row col w
  = (Ok tt, perform (Logged (CellChanged row col b a)) w).
Proof.
  intros Ha Hb Hne. unfold compare_cell, bind. rewrite Ha, Hb. simpl.
  now rewrite Hne.
Qed.

(** The cell loop logs nothing when the cells that both frames have
    compare equal. *)
Lemma compare_cells_quiet (cur prev : DataFrame) (w : World) :
  (forall row col a b,
      iat cur row col = Some a -> iat prev row col = Some b ->
      py_ne a b = false) ->
  for_ (range 0 (Nat.min (len cur) (len prev))) (fun row =>
    for_ (range 0 (Nat.min (length (columns cur)) (length (columns prev))))
      (fun col => compare_cell cur prev row col)) w
  = (Ok tt, w).
Proof.
  intros H. apply for_quiet. intros row Hrow. apply in_range in Hrow.
  apply for_quiet. intros col Hcol. apply in_range in Hcol.
  destruct (iat_in_frame cur row col) as [a Ha]; [lia|lia|].
  destruct (iat_in_frame prev row col) as [b Hb]; [lia|lia|].
  apply (compare_cell_equal _ _ _ _ a b); eauto.
Qed.

(** A frame without null-like cells, compared with itself, logs nothing. *)
Lemma self_diff_quiet (df : DataFrame) (w : World) :
  (forall row col v, iat df row col = Some v -> isnull v = false) ->
  compare_row_by_row df (Some df) w = (Ok tt, w).
Proof.
  intros H. unfold compare_row_by_row, bind.
  assert (E : shape_eqb (shape df) (shape df) = true).
  { unfold shape_eqb. now rewrite !Nat.eqb_refl. }
  rewrite E. cbn [ret]. cbv zeta. rewrite compare_cells_quiet.
  - now rewrite Nat.ltb_irrefl.
  - intros row col a b Ha Hb. rewrite Ha in Hb. injection Hb as <-.
    specialize (H row col a Ha). unfold py_ne.
    destruct a; simpl in *; try discriminate;
      now rewrite ?pystr_eqb_refl, ?Z.eqb_refl, ?Bool.eqb_reflx.
Qed.

(** C1, at a sheet whose only record has an unparseable return date:
    compared with itself, the sheet makes the comparison block log that row
    0, column 4 changed from NaT to NaT; two runs in a row over that sheet,
    the first with nothing stored, leave that line in the change log after
    the first-run marker. *)
Theorem self_diff_logs_missing_date (smtp : Transport) (w : World) :
  compare_row_by_row undated_sheet (Some undated_sheet) w
  = (Ok tt, perform (Logged (CellChanged 0 4 VNaT VNaT)) w)
  /\ change_log
       (journal (snd (compare_row_by_row undated_sheet (Some undated_sheet) w)))
     = change_log (journal w) ++ [CellChanged 0 4 VNaT VNaT]
  /\ (let run := check_excel smtp (lit "3a7bd3e2") undated_sheet 738950 in
      change_log (journal (snd (run (snd (run first_world)))))
      = [NoPreviousData; CellChanged 0 4 VNaT VNaT]).
Proof.
  assert (E : compare_row_by_row undated_sheet (Some undated_sheet) w
              = (Ok tt, perform (Logged (CellChanged 0 4 VNaT VNaT)) w))
    by reflexivity.
  split; [exact E|]. rewrite E. split; [|reflexivity].
  simpl. now rewrite change_log_app.
Qed.

(** C2, on the code: [NaT] compares unequal to every value, [NaT] itself
    included, and a cell that holds [NaT] in both snapshots is logged as
    changed from NaT to NaT. *)
Theorem missing_date_differs_from_itself :
  (forall v, py_ne VNaT v = true /\ py_ne v VNaT = true)
  /\ py_ne VNaT VNaT = true
  /\ (forall cur prev row col w,
        iat cur row col = Some VNaT -> iat prev row col = Some VNaT ->
        compare_cell cur prev row col w
        = (Ok tt, perform (Logged (CellChanged row col VNaT VNaT)) w)).
Proof.
  split; [|split; [reflexivity|]].
  - intros v. now destruct v.
  - intros cur prev row col w Hc Hp.
    now apply (compare_cell_differs _ _ _ _ VNaT VNaT).
Qed.

(** When the current frame has the columns of the previous one and
    exactly one more row, and every cell the two frames share compares
    equal, the comparison block returns normally and logs exactly two lines:
    the shape change, then one added row at index [len df_previous], the new
    last index, with the content of that row. *)
Theorem one_trailing_row_added (df_current df_previous : DataFrame)
    (w : World) :
  columns df_current = columns df_previous ->
  len df_current = S (len df_previous) ->
  (forall row col a b,
      iat df_current row col = Some a -> iat df_previous row col = Some b ->
      py_ne a b = false) ->
  exists record,
    iloc_to_dict df_current (len df_previous) = Some record
    /\ fst (compare_row_by_row df_current (Some df_previous) w) = Ok tt
    /\ journal (snd (compare_row_by_row df_current (Some df_previous) w))
       = journal w
         ++ [Logged (ShapeChanged (shape df_previous) (shape df_current));
             Logged (RowAdded (len df_previous) record)].
Proof.
  intros Hcols Hlen Hcells.
  destruct (iloc_in_frame df_current (len df_previous)) as [record Hrec];
    [lia|].
  exists record. split; [exact Hrec|].
  assert (E : shape_eqb (shape df_current) (shape df_previous) = false).
  { unfold shape_eqb, shape. simpl. rewrite Hlen.
    assert (Nat.eqb (S (len df_previous)) (len df_previous) = false) as ->
      by (apply Nat.eqb_neq; lia).
    reflexivity. }
  assert (L : (len df_previous <? len df_current)%nat = true)
    by (apply Nat.ltb_lt; lia).
  assert (R : range (len df_previous) (len df_current) = [len df_previous]).
  { unfold range. rewrite Hlen.
    now replace (S (len df_previous) - len df_previous)%nat with 1%nat by lia. }
  unfold compare_row_by_row. rewrite E, L, R. cbv zeta.
  cbn [bind log_change emit].
  rewrite (bind_ok _ _ _ _ tt (compare_cells_quiet _ _ _ Hcells)).
  cbn [for_]. unfold bind. rewrite Hrec. cbn [or_raise ret log_change emit].
  split; [reflexivity|]. simpl. now rewrite <- app_assoc.
Qed.

(** ** The comparison block as a list of lines *)

(** The line for the shapes, when they differ. *)
Definition shape_lines (cur prev : DataFrame) : list ChangeMessage :=
  if shape_eqb (shape cur) (shape prev) then []
  else [ShapeChanged (shape prev) (shape cur)].

(** The line for the cell at [row], [col], when both frames have it and the
    two values compare unequal. *)
Definition cell_line (cur prev : DataFrame) (row col : nat)
  : list ChangeMessage :=
  match iat cur row col, iat prev row col with
  | Some a, Some b => if py_ne a b then [CellChanged row col b a] else []
  | _, _ => []
  end.

(** The lines for the cells, row after row and, in a row, column after
    column. *)
Definition cell_lines (cur prev : DataFrame) : list ChangeMessage :=
  flat_map (fun row =>
    flat_map (fun col => cell_line cur prev row col)
      (range 0 (Nat.min (length (columns cur)) (length (columns prev)))))
    (range 0 (Nat.min (len cur) (len prev))).

(** Row [r] of [df] under the column names. *)
Definition record_at (df : DataFrame) (r : nat) : list (pystr * value) :=
  combine (columns df) (nth r (values df) []).

(** The lines for the rows only one of the frames has. *)
Definition row_lines (cur prev : DataFrame) : list ChangeMessage :=
  if (len prev <? len cur)%nat then
    map (fun r => RowAdded r (record_at cur r)) (range (len prev) (len cur))
  else if (len cur <? len prev)%nat then
    map (fun r => RowRemoved r (record_at prev r)) (range (len cur) (len prev))
  else [].

Definition diff_lines (cur prev : DataFrame) : list ChangeMessage :=
  shape_lines cur prev ++ cell_lines cur prev ++ row_lines cur prev.

(** [logs m lines]: [m] returns normally after appending [lines], and
    nothing else, to the change log. *)
Definition logs (m : M unit) (lines : list ChangeMessage) : Prop :=
  forall w, m w = (Ok tt, perform_all (map Logged lines) w).

Lemma logs_ret : logs (ret tt) [].
Proof. now intros w. Qed.

Lemma logs_log_change (m : ChangeMessage) : logs (log_change m) [m].
Proof. now intros w. Qed.

Lemma logs_bind (m k : M unit) (l1 l2 : list ChangeMessage) :
  logs m l1 -> logs k l2 -> logs (m ;; k) (l1 ++ l2).
Proof.
  intros Hm Hk w. unfold bind. rewrite Hm, Hk.
  now rewrite map_app, perform_all_app.
Qed.

Lemma logs_for {A} (l : list A) (body : A -> M unit)
    (f : A -> list ChangeMessage) :
  (forall x, In x l -> logs (body x) (f x)) ->
  logs (for_ l body) (flat_map f l).
Proof.
  induction l as [|x l IH]; intros H; simpl; [apply logs_ret|].
  apply logs_bind; [apply H; now left|].
  apply IH. intros y Hy. apply H. now right.
Qed.

Lemma logs_compare_cell (cur prev : DataFrame) (row col : nat) :
  (row < Nat.min (len cur) (len prev))%nat ->
  (col < Nat.min (length (columns cur)) (length (columns prev)))%nat ->
  logs (compare_cell cur prev row col) (cell_line cur prev row col).
Proof.
  intros Hr Hc w. unfold compare_cell, cell_line, bind.
  destruct (iat_in_frame cur row col) as [a ->]; [lia|lia|].
  destruct (iat_in_frame prev row col) as [b ->]; [lia|lia|].
  simpl. now destruct (py_ne a b).
Qed.

Lemma iloc_record_at (df : DataFrame) (r : nat) :
  (r < len df)%nat -> iloc_to_dict df r = Some (record_at df r).
Proof.
  intros Hr. unfold iloc_to_dict, record_at, len in *.
  destruct (nth_error (values df) r) as [cs|] eqn:E.
  - simpl. now rewrite (nth_error_nth _ _ _ E).
  - apply nth_error_None in E. lia.
Qed.

Lemma map_as_flat_map {A B} (f : A -> B) (l : list A) :
  map f l = flat_map (fun x => [f x]) l.
Proof. induction l; simpl; congruence. Qed.

Lemma logs_compare (cur prev : DataFrame) :
  logs (compare_row_by_row cur (Some prev)) (diff_lines cur prev).
Proof.
  unfold compare_row_by_row, diff_lines. apply logs_bind.
  { unfold shape_lines. destruct (shape_eqb _ _);
      [apply logs_ret|apply logs_log_change]. }
  cbv zeta. apply logs_bind.
  { apply logs_for. intros row Hrow. apply in_range in Hrow.
    apply logs_for. intros col Hcol. apply in_range in Hcol.
    apply logs_compare_cell; lia. }
  unfold row_lines.
  destruct (len prev <? len cur)%nat.
  - rewrite map_as_flat_map. apply logs_for. intros r Hr.
    apply in_range in Hr. intros w. unfold bind.
    rewrite iloc_record_at by lia. reflexivity.
  - destruct (len cur <? len prev)%nat; [|apply logs_ret].
    rewrite map_as_flat_map. apply logs_for. intros r Hr.
    apply in_range in Hr. intros w. unfold bind.
    rewrite iloc_record_at by lia. reflexivity.
Qed.

Lemma change_log_logged (lines : list ChangeMessage) :
  change_log (map Logged lines) = lines.
Proof. induction lines; simpl; congruence. Qed.

Lemma outbox_logged (lines : list ChangeMessage) :
  outbox (map Logged lines) = [].
Proof. induction lines; simpl; congruence. Qed.

Lemma logs_change_log (m : M unit) (lines : list ChangeMessage) (w : World) :
  logs m lines ->
  change_log (journal (snd (m w))) = change_log (journal w) ++ lines.
Proof.
  intros H. rewrite H. simpl.
  now rewrite journal_perform_all, change_log_app, change_log_logged.
Qed.

(** X1: compared with a stored snapshot, a frame makes the comparison
    block return normally after it appended to the change log, and did
    nothing else: the shape line when the shapes differ, then one line per
    cell of both frames whose values compare unequal, row after row and
    column after column, then one line per row that only the longer frame
    has, in ascending index. *)
Theorem compare_appends_diff_lines (cur prev : DataFrame) (w : World) :
  compare_row_by_row cur (Some prev) w
  = (Ok tt, perform_all (map Logged (diff_lines cur prev)) w)
  /\ change_log (journal (snd (compare_row_by_row cur (Some prev) w)))
     = change_log (journal w)
       ++ shape_lines cur prev ++ cell_lines cur prev ++ row_lines cur prev
  /\ outbox (journal (snd (compare_row_by_row cur (Some prev) w)))
     = outbox (journal w)
  /\ last_data_pkl (snd (compare_row_by_row cur (Some prev) w))
     = last_data_pkl w
  /\ last_hash_txt (snd (compare_row_by_row cur (Some prev) w))
     = last_hash_txt w.
Proof.
  pose proof (logs_compare cur prev) as H.
  split; [apply H|]. split; [now apply logs_change_log|].
  rewrite H. simpl.
  assert (Hs : forallb (fun e => negb (is_store_write e))
                 (map Logged (diff_lines cur prev)) = true).
  { apply forallb_forall. intros e He. apply in_map_iff in He.
    now destruct He as (m & <- & _). }
  destruct (stores_perform_all _ w Hs) as [-> ->].
  split; [|now split].
  rewrite journal_perform_all, outbox_app.
  rewrite outbox_logged. apply app_nil_r.
Qed.

Lemma iat_bounds (df : DataFrame) (row col : nat) (v : value) :
  iat df row col = Some v ->
  (row < len df)%nat /\ (col < length (columns df))%nat.
Proof.
  unfold iat, len. intros H.
  destruct (nth_error (values df) row) as [cs|] eqn:E; [|discriminate].
  split.
  - apply nth_error_Some. congruence.
  - rewrite <- (row_length _ _ _ E). apply nth_error_Some. congruence.
Qed.

Lemma in_range_iff (a b x : nat) : In x (range a b) <-> (a <= x < b)%nat.
Proof. unfold range. rewrite in_seq. lia. Qed.

Lemma in_cell_lines (cur prev : DataFrame) (m : ChangeMessage) :
  In m (cell_lines cur prev)
  <-> exists row col a b,
        iat cur row col = Some a /\ iat prev row col = Some b
        /\ py_ne a b = true /\ m = CellChanged row col b a.
Proof.
  unfold cell_lines. rewrite in_flat_map. split.
  - intros (row & _ & H). apply in_flat_map in H as (col & _ & H).
    unfold cell_line in H.
    destruct (iat cur row col) as [a|] eqn:Ea; [|easy].
    destruct (iat prev row col) as [b|] eqn:Eb; [|easy].
    destruct (py_ne a b) eqn:En; [|easy].
    destruct H as [<-|[]]. now exists row, col, a, b.
  - intros (row & col & a & b & Ha & Hb & Hne & ->).
    destruct (iat_bounds _ _ _ _ Ha), (iat_bounds _ _ _ _ Hb).
    exists row. split; [apply in_range_iff; lia|].
    apply in_flat_map. exists col. split; [apply in_range_iff; lia|].
    unfold cell_line. rewrite Ha, Hb, Hne. now left.
Qed.

(** X2: the comparison block logs that the cell at a row and column
    changed from [old] to [new] exactly when both frames have that cell, the
    stored frame holds [old] there, the current frame holds [new], and
    [new != old]. *)
Theorem cell_change_logged_iff (cur prev : DataFrame) (w : World) :
  exists lines,
    change_log (journal (snd (compare_row_by_row cur (Some prev) w)))
    = change_log (journal w) ++ lines
    /\ forall row col old new,
         In (CellChanged row col old new) lines
         <-> iat cur row col = Some new /\ iat prev row col = Some old
             /\ py_ne new old = true.
Proof.
  exists (diff_lines cur prev).
  split; [apply logs_change_log, logs_compare|].
  intros row col old new. unfold diff_lines. rewrite !in_app_iff. split.
  - intros [H|[H|H]].
    + unfold shape_lines in H. destruct (shape_eqb _ _); [easy|].
      now destruct H as [[=]|[]].
    + apply in_cell_lines in H
        as (r & c & a & b & Ha & Hb & Hne & [= -> -> -> ->]).
      now repeat split.
    + unfold row_lines in H.
      destruct (len prev <? len cur)%nat;
        [|destruct (len cur <? len prev)%nat; [|easy]];
        apply in_map_iff in H as (r & [=] & _).
  - intros (Ha & Hb & Hne). right. left. apply in_cell_lines.
    now exists row, col, new, old.
Qed.

Lemma flat_map_nil {A B} (f : A -> list B) (l : list A) :
  (forall y, In y l -> f y = []) -> flat_map f l = [].
Proof.
  induction l as [|a l IH]; intros H; simpl; [reflexivity|].
  rewrite (H a) by now left. apply IH. intros y Hy. apply H. now right.
Qed.

Lemma flat_map_single {A B} (f : A -> list B) (l : list A) (x : A) :
  NoDup l -> In x l -> (forall y, In y l -> y <> x -> f y = []) ->
  flat_map f l = f x.
Proof.
  induction l as [|a l IH]; intros Hnd Hin H; [easy|].
  inversion Hnd as [|? ? Ha Hl]; subst. simpl. destruct Hin as [->|Hin].
  - rewrite (flat_map_nil f l); [apply app_nil_r|].
    intros y Hy. apply H; [now right|]. intros ->. contradiction.
  - rewrite (H a); [|now left|intros ->; contradiction].
    apply IH; auto. intros y Hy. apply H. now right.
Qed.

Lemma range_NoDup (a b : nat) : NoDup (range a b).
Proof. apply seq_NoDup. Qed.

Lemma cell_line_equal (cur prev : DataFrame) (row col : nat) :
  (forall a b, iat cur row col = Some a -> iat prev row col = Some b ->
               py_ne a b = false) ->
  cell_line cur prev row col = [].
Proof.
  intros H. unfold cell_line.
  destruct (iat cur row col) as [a|]; [|reflexivity].
  destruct (iat prev row col) as [b|]; [|reflexivity].
  now rewrite (H a b).
Qed.

Lemma cell_lines_equal (cur prev : DataFrame) :
  (forall row col a b,
      iat cur row col = Some a -> iat prev row col = Some b ->
      py_ne a b = false) ->
  cell_lines cur prev = [].
Proof.
  intros H. unfold cell_lines. apply flat_map_nil. intros row _.
  apply flat_map_nil. intros col _. apply cell_line_equal. apply H.
Qed.

Lemma shape_eqb_eq (a b : nat * nat) : shape_eqb a b = true <-> a = b.
Proof.
  destruct a as [a1 a2], b as [b1 b2]. unfold shape_eqb. simpl.
  rewrite andb_true_iff, !Nat.eqb_eq. split; [intros [-> ->]|intros [=]]; auto.
Qed.

(** X3: when the two frames have the same shape and their cells compare
    equal everywhere but at one place, where the stored frame holds [old] and
    the current one [new], the comparison block logs one line, that this
    cell changed from [old] to [new], and does nothing else. *)
Theorem one_cell_changed (cur prev : DataFrame) (r c : nat)
    (old new : value) (w : World) :
  shape cur = shape prev ->
  iat cur r c = Some new ->
  iat prev r c = Some old ->
  py_ne new old = true ->
  (forall row col a b,
      row <> r \/ col <> c ->
      iat cur row col = Some a -> iat prev row col = Some b ->
      py_ne a b = false) ->
  compare_row_by_row cur (Some prev) w
  = (Ok tt, perform (Logged (CellChanged r c old new)) w).
Proof.
  intros Hshape Hnew Hold Hne Hrest.
  rewrite logs_compare.
  assert (E : diff_lines cur prev = [CellChanged r c old new]);
    [|now rewrite E].
  unfold diff_lines, shape_lines, row_lines.
  assert (Hlen : len cur = len prev) by (now injection Hshape).
  rewrite (proj2 (shape_eqb_eq _ _) Hshape), Hlen, Nat.ltb_irrefl.
  simpl. rewrite app_nil_r.
  destruct (iat_bounds _ _ _ _ Hnew), (iat_bounds _ _ _ _ Hold).
  unfold cell_lines.
  rewrite (flat_map_single _ _ r);
    [|apply range_NoDup|apply in_range_iff; lia|].
  - rewrite (flat_map_single _ _ c);
      [|apply range_NoDup|apply in_range_iff; lia|].
    + unfold cell_line. now rewrite Hnew, Hold, Hne.
    + intros col _ Hcol. apply cell_line_equal. intros a b.
      apply Hrest. now right.
  - intros row _ Hrow. apply flat_map_nil. intros col _.
    apply cell_line_equal. intros a b. apply Hrest. now left.
Qed.

(** X4: when the cells the two frames share compare equal and the row
    counts differ, the comparison block logs the shape line and then one
    line per row only one frame has: rows [len prev] up to [len cur - 1] of
    the current frame as added, or rows [len cur] up to [len prev - 1] of the
    stored frame as removed, each once, in ascending index, with the content
    of the row. *)
Theorem trailing_rows_reported (cur prev : DataFrame) (w : World) :
  (forall row col a b,
      iat cur row col = Some a -> iat prev row col = Some b ->
      py_ne a b = false) ->
  let logged :=
    change_log (journal (snd (compare_row_by_row cur (Some prev) w))) in
  ((len prev < len cur)%nat ->
   logged
   = change_log (journal w)
     ++ ShapeChanged (shape prev) (shape cur)
        :: map (fun r => RowAdded r (record_at cur r))
             (range (len prev) (len cur)))
  /\ ((len cur < len prev)%nat ->
      logged
      = change_log (journal w)
        ++ ShapeChanged (shape prev) (shape cur)
           :: map (fun r => RowRemoved r (record_at prev r))
                (range (len cur) (len prev))).
Proof.
  intros Hcells logged. subst logged.
  rewrite (logs_change_log _ _ w (logs_compare cur prev)).
  unfold diff_lines. rewrite (cell_lines_equal _ _ Hcells).
  unfold shape_lines, row_lines.
  split; intros Hlen.
  - assert (E : shape_eqb (shape cur) (shape prev) = false).
    { destruct (shape_eqb _ _) eqn:E; [|reflexivity].
      apply shape_eqb_eq in E. injection E. lia. }
    rewrite E. now rewrite (proj2 (Nat.ltb_lt _ _) Hlen).
  - assert (E : shape_eqb (shape cur) (shape prev) = false).
    { destruct (shape_eqb _ _) eqn:E; [|reflexivity].
      apply shape_eqb_eq in E. injection E. lia. }
    rewrite E.
    assert (L : (len prev <? len cur)%nat = false) by (apply Nat.ltb_ge; lia).
    now rewrite L, (proj2 (Nat.ltb_lt _ _) Hlen).
Qed.

(** ** A run, up to the loop over the records *)

(** What part A does, given the content of the hash store. *)
Definition hash_effects (current_hash : pystr) (stored : option pystr)
  : list Effect :=
  match option_map strip stored with
  | Some (c :: h) =>
      if pystr_eqb current_hash (c :: h) then []
      else [Logged HashChanged; Printed HashWarning]
  | _ => []
  end.

(** The lines of part C, given the content of the snapshot store. *)
Definition compare_lines (cur : DataFrame) (prev : option DataFrame)
  : list ChangeMessage :=
  match prev with
  | Some prev => diff_lines cur prev
  | None => [NoPreviousData]
  end.

(** The world when part E starts. *)
Definition saved (current_hash : pystr) (df_current : DataFrame) (w : World)
  : World :=
  perform (HashWritten current_hash)
    (perform (PickleDumped df_current)
       (perform_all
          (hash_effects current_hash (last_hash_txt w)
           ++ map Logged (compare_lines df_current (last_data_pkl w)))
          w)).

(** A code point of a hexadecimal digest. *)
Definition is_hexdigit (c : N) : bool :=
  (((48 <=? c) && (c <=? 57)) || ((97 <=? c) && (c <=? 102)))%N.

Lemma check_file_hash_run (current_hash : pystr) (w : World) :
  check_file_hash current_hash w
  = (Ok tt, perform_all (hash_effects current_hash (last_hash_txt w)) w).
Proof.
  unfold check_file_hash, bind, load_previous_hash, hash_effects.
  destruct (option_map strip (last_hash_txt w)) as [[|c h]|];
    try reflexivity.
  now destruct (pystr_eqb current_hash (c :: h)).
Qed.

Lemma hash_effects_keep_stores (current_hash : pystr) (stored : option pystr) :
  forallb (fun e => negb (is_store_write e)) (hash_effects current_hash stored)
  = true.
Proof.
  unfold hash_effects. destruct (option_map strip stored) as [[|c h]|];
    try reflexivity.
  now destruct (pystr_eqb current_hash (c :: h)).
Qed.

Lemma compare_run (cur : DataFrame) (prev : option DataFrame) (w : World) :
  compare_row_by_row cur prev w
  = (Ok tt, perform_all (map Logged (compare_lines cur prev)) w).
Proof. destruct prev as [prev|]; [apply logs_compare|reflexivity]. Qed.

(** A run is parts A, C and D, which always get through, followed by part
    E. *)
Lemma check_excel_run (smtp : Transport) (current_hash : pystr)
    (df_current : DataFrame) (today : date) (w : World) :
  check_excel smtp current_hash df_current today w
  = check_dates smtp today df_current (saved current_hash df_current w).
Proof.
  unfold check_excel, bind. rewrite check_file_hash_run.
  unfold load_previous_data at 1.
  destruct (stores_perform_all _ w
              (hash_effects_keep_stores current_hash (last_hash_txt w)))
    as [-> _].
  rewrite compare_run. unfold save_current_data, save_current_hash, emit, saved.
  now rewrite perform_all_app.
Qed.

Lemma saved_stores (current_hash : pystr) (df_current : DataFrame)
    (w : World) :
  last_data_pkl (saved current_hash df_current w) = Some df_current
  /\ last_hash_txt (saved current_hash df_current w) = Some current_hash.
Proof. now split. Qed.

Lemma outbox_hash_effects (current_hash : pystr) (stored : option pystr) :
  outbox (hash_effects current_hash stored) = [].
Proof.
  unfold hash_effects. destruct (option_map strip stored) as [[|c h]|];
    try reflexivity.
  now destruct (pystr_eqb current_hash (c :: h)).
Qed.

Lemma saved_outbox (current_hash : pystr) (df_current : DataFrame)
    (w : World) :
  outbox (journal (saved current_hash df_current w)) = outbox (journal w).
Proof.
  unfold saved. simpl.
  rewrite journal_perform_all, !outbox_app, outbox_hash_effects, outbox_logged.
  simpl. now rewrite !app_nil_r.
Qed.

Lemma saved_change_log (current_hash : pystr) (df_current : DataFrame)
    (w : World) :
  change_log (journal (saved current_hash df_current w))
  = change_log (journal w)
    ++ change_log (hash_effects current_hash (last_hash_txt w))
    ++ compare_lines df_current (last_data_pkl w).
Proof.
  unfold saved. simpl.
  rewrite journal_perform_all, !change_log_app, change_log_logged. simpl.
  now rewrite !app_nil_r, app_assoc.
Qed.

(** Part E leaves the change log and the stores alone. *)
Lemma check_dates_keeps (smtp : Transport) (today : date) (df : DataFrame)
    (w : World) :
  change_log (journal (snd (check_dates smtp today df w)))
  = change_log (journal w)
  /\ last_data_pkl (snd (check_dates smtp today df w)) = last_data_pkl w
  /\ last_hash_txt (snd (check_dates smtp today df w)) = last_hash_txt w.
Proof.
  destruct (emits_check_dates smtp today df w) as (es & -> & Hes).
  split.
  - rewrite journal_perform_all, change_log_app, (delivery_not_logged _ Hes).
    apply app_nil_r.
  - apply stores_perform_all. now apply delivery_not_store_write.
Qed.

Lemma diff_lines_self (df : DataFrame) :
  (forall row col v, iat df row col = Some v -> isnull v = false) ->
  diff_lines df df = [].
Proof.
  intros H. pose proof (self_diff_quiet df first_world H) as Q.
  rewrite logs_compare in Q. injection Q as Q.
  apply (f_equal journal) in Q. rewrite journal_perform_all in Q.
  simpl in Q. now destruct (diff_lines df df).
Qed.

Lemma lstrip_fixed (s : pystr) :
  forallb (fun c => negb (is_space c)) s = true -> lstrip s = s.
Proof.
  destruct s as [|c s]; simpl; [reflexivity|].
  intros H. apply andb_true_iff in H as [Hc _].
  now destruct (is_space c).
Qed.

Lemma strip_fixed (s : pystr) :
  forallb (fun c => negb (is_space c)) s = true -> strip s = s.
Proof.
  intros H. unfold strip, rstrip. rewrite (lstrip_fixed s H).
  rewrite lstrip_fixed by now apply forallb_rev.
  apply rev_involutive.
Qed.

Lemma hexdigit_not_space (c : N) : is_hexdigit c = true -> is_space c = false.
Proof.
  unfold is_hexdigit. intros H.
  assert (B : (48 <= c <= 102)%N).
  { apply orb_true_iff in H as [H|H]; apply andb_true_iff in H as [H1 H2];
      apply N.leb_le in H1, H2; lia. }
  unfold is_space.
  repeat (apply orb_false_intro);
    first [ apply N.eqb_neq; lia
          | apply andb_false_iff; left; apply N.leb_gt; lia
          | apply andb_false_iff; right; apply N.leb_gt; lia ].
Qed.

Lemma strip_hexdigest (h : pystr) :
  forallb is_hexdigit h = true -> strip h = h.
Proof.
  intros H. apply strip_fixed. rewrite forallb_forall in *.
  intros c Hc. now rewrite (hexdigit_not_space c (H c Hc)).
Qed.

Lemma hash_effects_same (h : pystr) :
  strip h = h -> hash_effects h (Some h) = [].
Proof.
  intros E. unfold hash_effects. simpl. rewrite E.
  destruct h as [|c h]; [reflexivity|]. now rewrite pystr_eqb_refl.
Qed.

(** X5: the hexadecimal digest that [save_current_hash] writes is what
    [load_previous_hash] gives back: the trimming on the way back takes
    nothing off it. *)
Theorem stores_round_trip (h : pystr) (w : World) :
  forallb is_hexdigit h = true ->
  (save_current_hash h ;; load_previous_hash) w
  = (Ok (Some h), perform (HashWritten h) w).
Proof.
  intros H. unfold bind, save_current_hash, emit, load_previous_hash. simpl.
  now rewrite (strip_hexdigest h H).
Qed.

(** X6: a run over the frame that is already in the snapshot store, when
    none of its cells is null-like, appends to the change log the hash line
    alone when the stored hash, trimmed, is not empty and differs from the
    current one, and nothing when the hash store is absent, holds nothing
    but white space, or holds the current hash up to surrounding white
    space. *)
Theorem rerun_on_stored_frame (smtp : Transport) (current_hash : pystr)
    (df_current : DataFrame) (today : date) (w : World) :
  last_data_pkl w = Some df_current ->
  (forall row col v, iat df_current row col = Some v -> isnull v = false) ->
  let logged :=
    change_log
      (journal (snd (check_excel smtp current_hash df_current today w))) in
  let previous_hash := option_map strip (last_hash_txt w) in
  (previous_hash = None \/ previous_hash = Some []
   \/ previous_hash = Some current_hash ->
   logged = change_log (journal w))
  /\ (forall h, previous_hash = Some h -> h <> [] -> h <> current_hash ->
      logged = change_log (journal w) ++ [HashChanged]).
Proof.
  intros Hprev Hnn logged previous_hash. subst logged previous_hash.
  rewrite check_excel_run.
  rewrite (proj1 (check_dates_keeps _ _ _ _)), saved_change_log, Hprev.
  cbn [compare_lines]. rewrite (diff_lines_self _ Hnn), app_nil_r.
  unfold hash_effects. split.
  - intros [ -> | [ -> | -> ] ]; try now rewrite app_nil_r.
    destruct current_hash as [|c h]; [now rewrite app_nil_r|].
    rewrite pystr_eqb_refl. now rewrite app_nil_r.
  - intros h -> Hne Hdiff. destruct h as [|c h]; [easy|].
    destruct (pystr_eqb current_hash (c :: h)) eqn:E; [|reflexivity].
    apply pystr_eqb_eq in E. congruence.
Qed.

(** X7: after any run over a file whose digest is hexadecimal and a frame
    without null-like cells, a second run over the same file and frame adds
    no line to the change log, whatever the relay and the day of either
    run. *)
Theorem second_run_is_silent (smtp1 smtp2 : Transport) (current_hash : pystr)
    (df_current : DataFrame) (today1 today2 : date) (w : World) :
  forallb is_hexdigit current_hash = true ->
  (forall row col v, iat df_current row col = Some v -> isnull v = false) ->
  let w1 := snd (check_excel smtp1 current_hash df_current today1 w) in
  change_log
    (journal (snd (check_excel smtp2 current_hash df_current today2 w1)))
  = change_log (journal w1).
Proof.
  intros Hhex Hnn w1. subst w1.
  rewrite (check_excel_run smtp2).
  rewrite (proj1 (check_dates_keeps _ _ _ _)), saved_change_log.
  rewrite (check_excel_run smtp1).
  destruct (check_dates_keeps smtp1 today1 df_current
              (saved current_hash df_current w)) as (_ & -> & ->).
  destruct (saved_stores current_hash df_current w) as [-> ->].
  cbn [compare_lines]. rewrite (diff_lines_self _ Hnn).
  rewrite (hash_effects_same _ (strip_hexdigest _ Hhex)).
  simpl. now rewrite app_nil_r.
Qed.

(** ** The loop over the records *)

(** The columns the loop body reads from every record, in the order in
    which it reads them. *)
Definition required_columns : list string :=
  ["Date of Return"; "Returned"; "Roll Number"; "Email"]%string.

Definition has_column (df : DataFrame) (key : string) : bool :=
  existsb (pystr_eqb (lit key)) (columns df).

(** The two columns a frame has once its dates were coerced. *)
Definition has_date_columns (df : DataFrame) : bool :=
  has_column df "Date of Issuing" && has_column df "Date of Return".

(** The first required column the frame lacks. *)
Definition first_missing (df : DataFrame) : option string :=
  find (fun key => negb (has_column df key)) required_columns.

(** [sends_at_most k m]: [m] hands the relay at most [k] messages. *)
Definition sends_at_most {A} (k : nat) (m : M A) : Prop :=
  forall w, exists sent,
    outbox (journal (snd (m w))) = outbox (journal w) ++ sent
    /\ (length sent <= k)%nat.

Lemma lookup_absent (key : pystr) (idx : list pystr) (vs : list value) :
  existsb (pystr_eqb key) idx = false -> lookup key idx vs = None.
Proof.
  revert vs; induction idx as [|k idx IH]; intros vs H; [reflexivity|].
  destruct vs as [|v vs]; [reflexivity|]. simpl in *.
  apply orb_false_iff in H as [-> H]. now apply IH.
Qed.

Lemma lookup_present (key : pystr) (idx : list pystr) (vs : list value) :
  existsb (pystr_eqb key) idx = true -> length vs = length idx ->
  exists v, lookup key idx vs = Some v.
Proof.
  revert vs; induction idx as [|k idx IH]; intros vs H L; [discriminate|].
  destruct vs as [|v vs]; [discriminate|]. simpl in *.
  destruct (pystr_eqb key k); [now exists v|]. apply IH; [exact H|lia].
Qed.

Lemma check_dates_run (smtp : Transport) (today : date) (df : DataFrame)
    (w : World) :
  1 <= today < date_max ->
  check_dates smtp today df w
  = for_ (iterrows df) (loop_body smtp today (today + 1)) w.
Proof.
  intros H. unfold check_dates, date_add_days, bind.
  assert (E : (1 <=? today + 1) && (today + 1 <=? date_max) = true).
  { apply andb_true_iff. split; apply Z.leb_le; lia. }
  now rewrite E.
Qed.

Lemma in_iterrows (df : DataFrame) (row : Row) :
  In row (iterrows df) ->
  index row = columns df /\ length (cells row) = length (columns df).
Proof.
  unfold iterrows. intros H. apply in_map_iff in H as (cs & <- & Hcs).
  split; [reflexivity|]. simpl.
  pose proof (rectangular df) as R. rewrite forallb_forall in R.
  now apply Nat.eqb_eq, R.
Qed.

Lemma for_raises_first {A} (x : A) (l : list A) (body : A -> M unit)
    (e : Exception) (w : World) :
  body x w = (Raise e, w) -> for_ (x :: l) body w = (Raise e, w).
Proof. intros H. simpl. unfold bind. now rewrite H. Qed.

(** A record of a frame that lacks a required column makes the loop body
    raise for that column, before it looks at the return date. *)
Lemma loop_body_missing (smtp : Transport) (today tomorrow : date)
    (df : DataFrame) (row : Row) (key : string) (w : World) :
  In row (iterrows df) -> first_missing df = Some key ->
  loop_body smtp today tomorrow row w = (Raise (KeyError (lit key)), w).
Proof.
  intros Hrow Hkey. destruct (in_iterrows df row Hrow) as [Hidx Hlen].
  unfold first_missing, required_columns in Hkey. cbn [find] in Hkey.
  unfold has_column in Hkey.
  unfold loop_body, bind, getitem. rewrite Hidx.
  repeat match type of Hkey with
  | (if negb (existsb (pystr_eqb ?k) ?c) then _ else _) = _ =>
      let E := fresh "E" in
      destruct (existsb (pystr_eqb k) c) eqn:E; cbn [negb] in Hkey;
      [ destruct (lookup_present k c (cells row) E Hlen) as [? ->];
        cbn [or_raise ret]
      | injection Hkey as <-;
        now rewrite (lookup_absent _ _ (cells row) E) ]
  end.
  discriminate.
Qed.

(** A record without a return date, in a frame that has the required
    columns, makes the loop body return with nothing done. *)
Lemma loop_body_undated (smtp : Transport) (today tomorrow : date)
    (df : DataFrame) (row : Row) (w : World) :
  In row (iterrows df) -> first_missing df = None ->
  (forall v, lookup (lit "Date of Return") (index row) (cells row) = Some v ->
             isnull v = true) ->
  loop_body smtp today tomorrow row w = (Ok tt, w).
Proof.
  intros Hrow Hkey Hnull. destruct (in_iterrows df row Hrow) as [Hidx Hlen].
  unfold first_missing, required_columns in Hkey. cbn [find] in Hkey.
  unfold has_column in Hkey.
  unfold loop_body, bind, getitem. rewrite Hidx in *.
  destruct (existsb (pystr_eqb (lit "Date of Return")) (columns df)) eqn:E1;
    cbn [negb] in Hkey; [|discriminate].
  destruct (existsb (pystr_eqb (lit "Returned")) (columns df)) eqn:E2;
    cbn [negb] in Hkey; [|discriminate].
  destruct (existsb (pystr_eqb (lit "Roll Number")) (columns df)) eqn:E3;
    cbn [negb] in Hkey; [|discriminate].
  destruct (existsb (pystr_eqb (lit "Email")) (columns df)) eqn:E4;
    cbn [negb] in Hkey; [|discriminate].
  destruct (lookup_present _ _ (cells row) E1 Hlen) as [v1 H1].
  destruct (lookup_present _ _ (cells row) E2 Hlen) as [v2 ->].
  destruct (lookup_present _ _ (cells row) E3 Hlen) as [v3 ->].
  destruct (lookup_present _ _ (cells row) E4 Hlen) as [v4 ->].
  rewrite H1. cbn [or_raise ret]. now rewrite (Hnull v1 H1).
Qed.

Lemma loop_body_sends_at_most_one (smtp : Transport) (today : date)
    (row : Row) :
  sends_at_most 1 (loop_body smtp today (today + 1) row).
Proof.
  intros w. unfold loop_body, bind, getitem, or_raise.
  destruct (lookup (lit "Date of Return") _ _) as [return_date|];
    [|nothing_sent].
  destruct (lookup (lit "Returned") _ _) as [returned|]; [|nothing_sent].
  destruct (lookup (lit "Roll Number") _ _) as [roll_number|];
    [|nothing_sent].
  destruct (lookup (lit "Email") _ _) as [email|]; [|nothing_sent].
  cbn [ret raise].
  destruct (isnull return_date); [nothing_sent|].
  destruct return_date as [| | | |ns|]; cbn [date_method ret raise];
    try nothing_sent.
  pose proof (not_both (timestamp_date ns) today (normalize returned)) as X.
  destruct (due_tomorrow _ _ _), (past_due _ _ _); try discriminate X.
  - destruct (lookup (lit "Name") _ _) as [name|]; [|nothing_sent].
    cbn [ret].
    pose proof (send_email_outbox smtp (lit "Return Due Tomorrow")
                  (reminder_body name roll_number) [email] w) as H.
    destruct (send_email _ _ _ _ w) as [[[]|e] w']; exact H.
  - apply send_email_outbox.
  - nothing_sent.
Qed.

Lemma sends_at_most_for {A} (k : nat) (l : list A) (body : A -> M unit) :
  (forall x, sends_at_most k (body x)) ->
  sends_at_most (length l * k) (for_ l body).
Proof.
  intros H. induction l as [|x l IH]; intros w; simpl.
  - exists []. simpl. rewrite app_nil_r. split; [reflexivity|lia].
  - unfold bind. destruct (H x w) as (s1 & E1 & L1).
    destruct (body x w) as [[[]|e] w1]; simpl in E1.
    + destruct (IH w1) as (s2 & E2 & L2). exists (s1 ++ s2).
      rewrite E2, E1, app_assoc, length_app. split; [reflexivity|lia].
    + exists s1. simpl. split; [exact E1|lia].
Qed.

(** X8: a run hands the relay at most one message per record of the
    frame, whatever the frame, the relay and the day. *)
Theorem at_most_one_message_per_record (smtp : Transport)
    (current_hash : pystr) (df_current : DataFrame) (today : date)
    (w : World) :
  exists sent,
    outbox (journal (snd (check_excel smtp current_hash df_current today w)))
    = outbox (journal w) ++ sent
    /\ (length sent <= len df_current)%nat.
Proof.
  rewrite check_excel_run.
  rewrite <- (saved_outbox current_hash df_current w).
  set (w0 := saved current_hash df_current w).
  unfold check_dates, date_add_days, bind.
  destruct ((1 <=? today + 1) && (today + 1 <=? date_max)).
  - cbn [ret].
    destruct (sends_at_most_for 1 (iterrows df_current)
                (loop_body smtp today (today + 1))
                (loop_body_sends_at_most_one smtp today) w0)
      as (sent & E & L).
    exists sent. split; [exact E|].
    unfold iterrows in L. rewrite length_map in L. unfold len. lia.
  - exists []. simpl. rewrite app_nil_r. split; [reflexivity|lia].
Qed.

(** X9: when a frame with at least one record has the two date columns,
    as every frame has once its dates were coerced, and lacks one of the
    columns Returned, Roll Number and Email, a run on a day that has a
    tomorrow raises [KeyError] for the first of them that is missing, after
    it overwrote both stores with the current data and before it handed the
    relay anything. *)
Theorem missing_column_raises (smtp : Transport) (current_hash : pystr)
    (df_current : DataFrame) (today : date) (w : World) (key : string) :
  has_date_columns df_current = true ->
  first_missing df_current = Some key ->
  values df_current <> [] ->
  1 <= today < date_max ->
  let w' := snd (check_excel smtp current_hash df_current today w) in
  fst (check_excel smtp current_hash df_current today w)
  = Raise (KeyError (lit key))
  /\ outbox (journal w') = outbox (journal w)
  /\ last_data_pkl w' = Some df_current
  /\ last_hash_txt w' = Some current_hash.
Proof.
  intros _ Hkey Hrows Htoday. cbv zeta.
  rewrite check_excel_run, check_dates_run by exact Htoday.
  assert (E : for_ (iterrows df_current) (loop_body smtp today (today + 1))
                (saved current_hash df_current w)
              = (Raise (KeyError (lit key)), saved current_hash df_current w)).
  { destruct (iterrows df_current) as [|row rows] eqn:R.
    - unfold iterrows in R. now destruct (values df_current).
    - apply for_raises_first, (loop_body_missing _ _ _ df_current);
        [rewrite R; now left|exact Hkey]. }
  rewrite E. cbn [fst snd]. split; [reflexivity|].
  split; [apply saved_outbox|]. apply saved_stores.
Qed.

(** X10: when the frame has the two date columns and the columns
    Returned, Roll Number and Email, and no record has a return date (an
    empty sheet included), a run on a day that has a tomorrow returns
    normally and hands the relay nothing, whatever the other cells hold. *)
Theorem no_return_dates_no_mail (smtp : Transport) (current_hash : pystr)
    (df_current : DataFrame) (today : date) (w : World) :
  has_date_columns df_current = true ->
  first_missing df_current = None ->
  (forall cs v,
      In cs (values df_current) ->
      lookup (lit "Date of Return") (columns df_current) cs = Some v ->
      isnull v = true) ->
  1 <= today < date_max ->
  check_excel smtp current_hash df_current today w
  = (Ok tt, saved current_hash df_current w)
  /\ outbox
       (journal (snd (check_excel smtp current_hash df_current today w)))
     = outbox (journal w).
Proof.
  intros _ Hcols Hnull Htoday.
  rewrite check_excel_run, check_dates_run by exact Htoday.
  rewrite for_quiet; [split; [reflexivity|apply saved_outbox]|].
  intros row Hrow. apply (loop_body_undated _ _ _ df_current); auto.
  intros v Hv. unfold iterrows in Hrow.
  apply in_map_iff in Hrow as (cs & <- & Hcs). now apply (Hnull cs).
Qed.

(** X11: when the first record of a sheet with the expected columns is
    due tomorrow and not returned and its Email cell is not text, a run on
    that day raises [TypeError] at this record: nothing is handed to the
    relay, for this record or for any record after it, and both stores
    already hold the current data. *)
Theorem reminder_without_address_aborts (smtp : Transport)
    (current_hash : pystr) (df_current : DataFrame) (today : date) (w : World)
    (name roll_number tag issued email returned : value) (ns : Z)
    (others : list (list value)) :
  columns df_current = sheet_columns ->
  values df_current
  = [name; roll_number; tag; issued; VTimestamp ns; email; returned]
    :: others ->
  (forall s, email <> VStr s) ->
  timestamp_date ns = today + 1 ->
  is_returned returned = false ->
  1 <= today < date_max ->
  let w' := snd (check_excel smtp current_hash df_current today w) in
  fst (check_excel smtp current_hash df_current today w) = Raise TypeError
  /\ outbox (journal w') = outbox (journal w)
  /\ last_data_pkl w' = Some df_current
  /\ last_hash_txt w' = Some current_hash.
Proof.
  intros Hcols Hvals Hemail Hdue Hret Htoday. cbv zeta.
  rewrite check_excel_run, check_dates_run by exact Htoday.
  assert (E : for_ (iterrows df_current) (loop_body smtp today (today + 1))
                (saved current_hash df_current w)
              = (Raise TypeError, saved current_hash df_current w)).
  { unfold iterrows. rewrite Hvals, Hcols. cbn [map].
    apply for_raises_first.
    change {| index := sheet_columns;
              cells := [name; roll_number; tag; issued; VTimestamp ns;
                        email; returned] |}
      with (sheet_row name roll_number tag issued (VTimestamp ns) email
              returned).
    rewrite loop_body_sheet_row.
    assert (C : classify today (today + 1) (timestamp_date ns)
                  (normalize returned) = ReminderDue).
    { unfold classify.
      rewrite (proj2 (due_tomorrow_iff _ _ _) (conj Hdue Hret)).
      destruct (past_due _ _ _) eqn:P; [|reflexivity].
      apply past_due_iff in P. lia. }
    rewrite C.
    pose proof (send_email_run smtp (lit "Return Due Tomorrow")
                  (reminder_body name roll_number) [email]
                  (saved current_hash df_current w)) as H.
    destruct email; try exact H. now destruct (Hemail s). }
  rewrite E. cbn [fst snd]. split; [reflexivity|].
  split; [apply saved_outbox|]. apply saved_stores.
Qed.

(** ** The messages of a run *)

(** The message a record of the expected sheet calls for on a given day,
    if any: the cells are those of [sheet_columns], in order. *)
Definition planned (today : date) (cs : list value) : list Email :=
  match cs with
  | [name; roll_number; _; _; VTimestamp ns; VStr contact; returned] =>
      match classify today (today + 1) (timestamp_date ns)
              (normalize returned) with
      | ReminderDue =>
          [{| subject := lit "Return Due Tomorrow";
              body := reminder_body name roll_number;
              to_addrs := [contact] |}]
      | Overdue =>
          [{| subject := lit "Failure of Returning";
              body := overdue_body roll_number;
              to_addrs := [lit "admin1@yourdomain.com";
                           lit "admin2@yourdomain.com"] |}]
      | _ => []
      end
  | _ => []
  end.

(** A record as the sheet is expected to give it: seven cells, the return
    date a [Timestamp] or [NaT], the e-mail address text. *)
Definition expected_record (cs : list value) : Prop :=
  exists name roll_number tag issued due contact returned,
    cs = [name; roll_number; tag; issued; due; VStr contact; returned]
    /\ (due = VNaT \/ exists ns, due = VTimestamp ns).

Lemma classify_never_both (today d : date) (flag : pystr) :
  classify today (today + 1) d flag <> ReminderAndOverdue.
Proof.
  unfold classify. pose proof (not_both d today flag) as H.
  now destruct (due_tomorrow _ _ _), (past_due _ _ _).
Qed.

Lemma send_email_to_text (smtp : Transport) (subject body : pystr)
    (recipients : list pystr) (w : World) :
  exists w',
    send_email smtp subject body (map VStr recipients) w = (Ok tt, w')
    /\ outbox (journal w')
       = outbox (journal w)
         ++ [{| subject := subject; body := body; to_addrs := recipients |}].
Proof.
  assert (E : str_items (map VStr recipients) = Some recipients).
  { induction recipients as [|r rs IH]; simpl; [reflexivity|].
    now rewrite IH. }
  pose proof (send_email_run smtp subject body (map VStr recipients) w) as H.
  rewrite E in H. cbv zeta in H. rewrite H. eexists. split; [reflexivity|].
  destruct (smtp (journal w) _); simpl; rewrite ?outbox_app; simpl;
    now rewrite ?app_nil_r.
Qed.

Lemma loop_body_expected (smtp : Transport) (today : date)
    (cs : list value) (w : World) :
  expected_record cs ->
  exists w',
    loop_body smtp today (today + 1) {| index := sheet_columns; cells := cs |} w
    = (Ok tt, w')
    /\ outbox (journal w') = outbox (journal w) ++ planned today cs.
Proof.
  intros (name & roll_number & tag & issued & due & contact & returned
          & -> & Hdue).
  change {| index := sheet_columns;
            cells := [name; roll_number; tag; issued; due; VStr contact;
                      returned] |}
    with (sheet_row name roll_number tag issued due (VStr contact) returned).
  destruct Hdue as [->|[ns ->]].
  - exists w. split; [|cbn [planned]; now rewrite app_nil_r].
    destruct (getitem_sheet_row name roll_number tag issued VNaT
                (VStr contact) returned) as (Hdue & Hret & Hroll & Hemail & _).
    unfold loop_body, bind. now rewrite Hdue, Hret, Hroll, Hemail.
  - rewrite loop_body_sheet_row. cbn [planned].
    pose proof (classify_never_both today (timestamp_date ns)
                  (normalize returned)) as Hnb.
    destruct (classify today (today + 1) (timestamp_date ns)
                (normalize returned)).
    + exists w. split; [reflexivity|now rewrite app_nil_r].
    + apply (send_email_to_text smtp _ _ [contact]).
    + apply (send_email_to_text smtp _ _
               [lit "admin1@yourdomain.com"; lit "admin2@yourdomain.com"]).
    + now destruct Hnb.
Qed.

Lemma for_expected (smtp : Transport) (today : date)
    (rows : list (list value)) (w : World) :
  Forall expected_record rows ->
  exists w',
    for_ (map (fun cs => {| index := sheet_columns; cells := cs |}) rows)
      (loop_body smtp today (today + 1)) w
    = (Ok tt, w')
    /\ outbox (journal w')
       = outbox (journal w) ++ flat_map (planned today) rows.
Proof.
  intros H. revert w. induction H as [|cs rows Hcs _ IH]; intros w.
  - exists w. split; [reflexivity|]. simpl. now rewrite app_nil_r.
  - destruct (loop_body_expected smtp today cs w Hcs) as (w1 & E1 & O1).
    destruct (IH w1) as (w2 & E2 & O2).
    exists w2. split.
    + cbn [map for_]. unfold bind. now rewrite E1.
    + rewrite O2, O1. cbn [flat_map]. now rewrite app_assoc.
Qed.

(** X12: on a sheet with the expected columns whose records have a
    [Timestamp] or [NaT] as return date and text as e-mail address, a run on
    a day that has a tomorrow returns normally and hands the relay, record
    after record, exactly the message each record calls for: a reminder to
    the record's own address when it is due tomorrow and not returned, an
    escalation to the two administrators when it is overdue and not
    returned, nothing otherwise; and this whatever the relay answers. *)
Theorem run_sends_planned_messages (smtp : Transport) (current_hash : pystr)
    (df_current : DataFrame) (today : date) (w : World) :
  columns df_current = sheet_columns ->
  Forall expected_record (values df_current) ->
  1 <= today < date_max ->
  fst (check_excel smtp current_hash df_current today w) = Ok tt
  /\ outbox
       (journal (snd (check_excel smtp current_hash df_current today w)))
     = outbox (journal w) ++ flat_map (planned today) (values df_current).
Proof.
  intros Hcols Hrows Htoday.
  rewrite check_excel_run, check_dates_run by exact Htoday.
  unfold iterrows. rewrite Hcols.
  destruct (for_expected smtp today (values df_current)
              (saved current_hash df_current w) Hrows) as (w' & -> & O).
  cbn [fst snd]. split; [reflexivity|]. now rewrite O, saved_outbox.
Qed.

(** ** Every record is looked at *)

(** What one pass of the loop body hands the relay for a record: read off a
    pass with a relay that works, from a world where nothing happened. *)
Definition attempts (today : date) (row : Row) : list Email :=
  outbox
    (journal
       (snd (loop_body (fun _ _ => true) today (today + 1) row first_world))).

(** A sheet of two records, one due on day 19788 after the epoch and one
    due on day 19780, neither returned. *)
Definition two_due_sheet : DataFrame :=
  {| columns := sheet_columns;
     values := [[VStr (lit "Asha"); VInt 101; VStr (lit "T-1");
                 VTimestamp (19782 * ns_per_day);
                 VTimestamp (19788 * ns_per_day);
                 VStr (lit "asha@example.org"); VStr (lit "no")];
                [VStr (lit "Ravi"); VInt 102; VStr (lit "T-2");
                 VTimestamp (19773 * ns_per_day);
                 VTimestamp (19780 * ns_per_day);
                 VStr (lit "ravi@example.org"); VNaN]];
     rectangular := eq_refl |}.

(** [undated_sheet] after a second record was appended. *)
Definition undated_grown_sheet : DataFrame :=
  {| columns := sheet_columns;
     values := [[VStr (lit "Asha"); VInt 101; VStr (lit "T-1");
                 VTimestamp (19782 * ns_per_day); VNaT;
                 VStr (lit "asha@example.org"); VStr (lit "no")];
                [VStr (lit "Ravi"); VInt 102; VStr (lit "T-2");
                 VTimestamp (19783 * ns_per_day);
                 VTimestamp (19790 * ns_per_day);
                 VStr (lit "ravi@example.org"); VStr (lit "no")]];
     rectangular := eq_refl |}.

Lemma send_email_sent (smtp : Transport) (subject body : pystr)
    (to_addrs : list value) (w : World) :
  outbox (journal (snd (send_email smtp subject body to_addrs w)))
  = outbox (journal w)
    ++ match str_items to_addrs with
       | Some recipients =>
           [{| subject := subject; body := body; to_addrs := recipients |}]
       | None => []
       end.
Proof.
  pose proof (send_email_run smtp subject body to_addrs w) as H.
  destruct (str_items to_addrs) as [recipients|]; cbv zeta in H; rewrite H.
  - destruct (smtp (journal w) _); simpl; rewrite ?outbox_app; simpl;
      now rewrite ?app_nil_r.
  - simpl. now rewrite app_nil_r.
Qed.

(** What a pass of the loop body adds to the outbox depends on the record
    alone, not on the relay and not on what happened before. *)
Lemma loop_body_sent (today : date) (row : Row) :
  exists sent, forall smtp w,
    outbox (journal (snd (loop_body smtp today (today + 1) row w)))
    = outbox (journal w) ++ sent.
Proof.
  unfold loop_body, bind, getitem, or_raise.
  destruct (lookup (lit "Date of Return") (index row) (cells row))
    as [return_date|];
    [|exists []; intros; simpl; now rewrite app_nil_r].
  destruct (lookup (lit "Returned") (index row) (cells row)) as [returned|];
    [|exists []; intros; simpl; now rewrite app_nil_r].
  destruct (lookup (lit "Roll Number") (index row) (cells row))
    as [roll_number|];
    [|exists []; intros; simpl; now rewrite app_nil_r].
  destruct (lookup (lit "Email") (index row) (cells row)) as [email|];
    [|exists []; intros; simpl; now rewrite app_nil_r].
  cbn [ret raise].
  destruct (isnull return_date);
    [exists []; intros; simpl; now rewrite app_nil_r|].
  destruct return_date as [| | | |ns|]; cbn [date_method ret raise];
    try (exists []; intros; simpl; now rewrite app_nil_r).
  pose proof (not_both (timestamp_date ns) today (normalize returned)) as X.
  destruct (due_tomorrow (timestamp_date ns) (today + 1) (normalize returned)),
           (past_due (timestamp_date ns) today (normalize returned));
    try discriminate X.
  - destruct (lookup (lit "Name") (index row) (cells row)) as [name|];
      [|exists []; intros; simpl; now rewrite app_nil_r].
    cbn [ret]. eexists. intros smtp w.
    pose proof (send_email_sent smtp (lit "Return Due Tomorrow")
                  (reminder_body name roll_number) [email] w) as H.
    destruct (send_email _ _ _ _ w) as [[[]|e] w']; exact H.
  - eexists. intros smtp w. apply send_email_sent.
  - exists []. intros. simpl. now rewrite app_nil_r.
Qed.

Lemma loop_body_attempts (smtp : Transport) (today : date) (row : Row)
    (w : World) :
  outbox (journal (snd (loop_body smtp today (today + 1) row w)))
  = outbox (journal w) ++ attempts today row.
Proof.
  destruct (loop_body_sent today row) as [sent H].
  unfold attempts. now rewrite (H smtp w), (H (fun _ _ => true) first_world).
Qed.

(** A loop that got through every record handed the relay what each record
    calls for, record after record. *)
Lemma for_attempts (smtp : Transport) (today : date) (rows : list Row)
    (w : World) :
  fst (for_ rows (loop_body smtp today (today + 1)) w) = Ok tt ->
  outbox (journal (snd (for_ rows (loop_body smtp today (today + 1)) w)))
  = outbox (journal w) ++ flat_map (attempts today) rows.
Proof.
  revert w; induction rows as [|row rows IH]; intros w H.
  - simpl. now rewrite app_nil_r.
  - cbn [for_ flat_map] in *. unfold bind in *.
    pose proof (loop_body_attempts smtp today row w) as A.
    destruct (loop_body smtp today (today + 1) row w) as [[[]|e] w1];
      [|discriminate H].
    simpl in A. rewrite (IH w1 H), A. now rewrite app_assoc.
Qed.

Lemma planned_expected (today : date)
    (name roll_number tag issued returned : value) (contact : pystr) (ns : Z) :
  planned today
    [name; roll_number; tag; issued; VTimestamp ns; VStr contact; returned]
  = match classify today (today + 1) (timestamp_date ns)
            (normalize returned) with
    | ReminderDue =>
        [{| subject := lit "Return Due Tomorrow";
            body := reminder_body name roll_number;
            to_addrs := [contact] |}]
    | Overdue =>
        [{| subject := lit "Failure of Returning";
            body := overdue_body roll_number;
            to_addrs := [lit "admin1@yourdomain.com";
                         lit "admin2@yourdomain.com"] |}]
    | _ => []
    end.
Proof. reflexivity. Qed.

(** What a pass of the loop body adds to the outbox for a record of the
    expected sheet with a return date and a text address. *)
Lemma sheet_row_sent (smtp : Transport) (today : date)
    (name roll_number tag issued returned : value) (contact : pystr) (ns : Z)
    (w : World) :
  outbox
    (journal
       (snd (loop_body smtp today (today + 1)
               (sheet_row name roll_number tag issued (VTimestamp ns)
                  (VStr contact) returned) w)))
  = outbox (journal w)
    ++ planned today
         [name; roll_number; tag; issued; VTimestamp ns; VStr contact;
          returned].
Proof.
  destruct (loop_body_expected smtp today
              [name; roll_number; tag; issued; VTimestamp ns; VStr contact;
               returned] w) as (w' & E & O).
  { do 7 eexists. split; [reflexivity|right; now eexists]. }
  unfold sheet_row. now rewrite E.
Qed.

(** C3: on a record of the expected sheet whose return date is present,
    with tomorrow the day after today as the loop computes it: the record is
    classified ReminderDue exactly when its return date is today + 1 and it
    is not returned, and Overdue exactly when the date is before today and
    it is not returned; the loop body hands the relay the reminder, and only
    it, exactly in the first case, and the escalation, and only it, exactly
    in the second; and when the return date is today the loop body returns
    with nothing done, whatever the Returned cell holds. *)
Theorem classify_by_due_date (smtp : Transport) (today : date) (ns : Z)
    (name roll_number tag issued returned : value) (contact : pystr)
    (w : World) :
  let d := timestamp_date ns in
  let c := classify today (today + 1) d (normalize returned) in
  let sent :=
    outbox
      (journal
         (snd (loop_body smtp today (today + 1)
                 (sheet_row name roll_number tag issued (VTimestamp ns)
                    (VStr contact) returned) w))) in
  (c = ReminderDue <-> d = today + 1 /\ is_returned returned = false) /\
  (c = Overdue <-> d < today /\ is_returned returned = false) /\
  (d = today -> c = NoNotification) /\
  (sent
   = outbox (journal w)
     ++ [{| subject := lit "Return Due Tomorrow";
            body := reminder_body name roll_number;
            to_addrs := [contact] |}]
   <-> d = today + 1 /\ is_returned returned = false) /\
  (sent
   = outbox (journal w)
     ++ [{| subject := lit "Failure of Returning";
            body := overdue_body roll_number;
            to_addrs := [lit "admin1@yourdomain.com";
                         lit "admin2@yourdomain.com"] |}]
   <-> d < today /\ is_returned returned = false) /\
  (forall email,
      d = today ->
      loop_body smtp today (today + 1)
        (sheet_row name roll_number tag issued (VTimestamp ns) email returned)
        w
      = (Ok tt, w)).
Proof.
  intros d c sent.
  assert (H : (c = ReminderDue <-> d = today + 1 /\ is_returned returned = false)
              /\ (c = Overdue <-> d < today /\ is_returned returned = false)
              /\ (d = today -> c = NoNotification)).
  { subst c. unfold classify.
    pose proof (due_tomorrow_iff d (today + 1) returned) as H1.
    pose proof (past_due_iff d today returned) as H2.
    destruct (due_tomorrow d (today + 1) (normalize returned)),
             (past_due d today (normalize returned));
      intuition (try discriminate; try lia). }
  destruct H as (Hr & Ho & Hn). repeat (split; [assumption|]).
  assert (S : sent
              = outbox (journal w)
                ++ planned today
                     [name; roll_number; tag; issued; VTimestamp ns;
                      VStr contact; returned])
    by apply sheet_row_sent.
  rewrite planned_expected in S. fold d in S. fold c in S.
  pose proof (classify_never_both today d (normalize returned)) as Hnb.
  fold c in Hnb.
  split; [|split].
  - rewrite <- Hr, S. split.
    + intros E. apply app_inv_head in E. now destruct c.
    + now intros ->.
  - rewrite <- Ho, S. split.
    + intros E. apply app_inv_head in E. now destruct c.
    + now intros ->.
  - intros email Hd. rewrite loop_body_sheet_row. fold d. fold c.
    now rewrite (Hn Hd).
Qed.

(** C5, at [undated_sheet] and the same sheet with one record appended:
    besides the shape line and the line for the added row at index 1, the
    new last index, the comparison block logs that row 0, column 4 changed
    from NaT to NaT, a cell that is the same in both frames. *)
Theorem trailing_row_after_missing_date (w : World) :
  compare_row_by_row undated_grown_sheet (Some undated_sheet) w
  = (Ok tt,
     perform_all
       [Logged (ShapeChanged (1%nat, 7%nat) (2%nat, 7%nat));
        Logged (CellChanged 0 4 VNaT VNaT);
        Logged (RowAdded 1 (record_at undated_grown_sheet 1))]
       w)
  /\ change_log
       (journal
          (snd (compare_row_by_row undated_grown_sheet (Some undated_sheet)
                  w)))
     = change_log (journal w)
       ++ [ShapeChanged (1%nat, 7%nat) (2%nat, 7%nat);
           CellChanged 0 4 VNaT VNaT;
           RowAdded 1 (record_at undated_grown_sheet 1)].
Proof.
  assert (E : diff_lines undated_grown_sheet undated_sheet
              = [ShapeChanged (1%nat, 7%nat) (2%nat, 7%nat);
                 CellChanged 0 4 VNaT VNaT;
                 RowAdded 1 (record_at undated_grown_sheet 1)])
    by reflexivity.
  split.
  - now rewrite logs_compare, E.
  - now rewrite (logs_change_log _ _ w (logs_compare _ _)), E.
Qed.

(** C7: a mail session that fails is caught inside [send_email], which
    prints the error and returns normally; [send_email] raises only when an
    address is not text, before any session and with nothing done.  For every
    frame, and whatever the relay does, a run ends the same way (normally, or
    with the same exception), hands the relay the same messages in the same
    order, logs the same lines and leaves the same stores as the run with a
    relay that never fails.  And every record is looked at, whichever
    sessions failed: a run that returns has handed the relay, record after
    record, what one pass of the loop body hands it for that record; on a
    sheet with the expected columns, return dates that are a Timestamp or
    NaT and text addresses, the run returns and these are the reminder or
    the escalation each record calls for. *)
Theorem transport_failure_does_not_abort (smtp : Transport)
    (current_hash : pystr) (df_current : DataFrame) (today : date)
    (w : World) :
  (forall subject body to_addrs recipients w0,
      str_items to_addrs = Some recipients ->
      let msg :=
        {| subject := subject; body := body; to_addrs := recipients |} in
      smtp (journal w0) msg = false ->
      send_email smtp subject body to_addrs w0
      = (Ok tt,
         perform (Printed ErrorSendingEmail) (perform (Smtp msg false) w0)))
  /\ (forall subject body to_addrs w0 e,
        fst (send_email smtp subject body to_addrs w0) = Raise e ->
        e = TypeError /\ str_items to_addrs = None
        /\ snd (send_email smtp subject body to_addrs w0) = w0)
  /\ (let reliable : Transport := fun _ _ => true in
      let w1 := snd (check_excel smtp current_hash df_current today w) in
      let w2 := snd (check_excel reliable current_hash df_current today w) in
      fst (check_excel smtp current_hash df_current today w)
      = fst (check_excel reliable current_hash df_current today w)
      /\ outbox (journal w1) = outbox (journal w2)
      /\ change_log (journal w1) = change_log (journal w2)
      /\ last_data_pkl w1 = last_data_pkl w2
      /\ last_hash_txt w1 = last_hash_txt w2)
  /\ (fst (check_excel smtp current_hash df_current today w) = Ok tt ->
      outbox
        (journal (snd (check_excel smtp current_hash df_current today w)))
      = outbox (journal w)
        ++ flat_map (attempts today) (iterrows df_current))
  /\ (columns df_current = sheet_columns ->
      Forall expected_record (values df_current) ->
      1 <= today < date_max ->
      fst (check_excel smtp current_hash df_current today w) = Ok tt
      /\ outbox
           (journal (snd (check_excel smtp current_hash df_current today w)))
         = outbox (journal w)
           ++ flat_map (planned today) (values df_current)).
Proof.
  split; [|split; [|split; [|split]]].
  - intros subject body to_addrs recipients w0 Hr msg Hf.
    pose proof (send_email_run smtp subject body to_addrs w0) as H.
    rewrite Hr in H. cbv zeta in H. fold msg in H. now rewrite Hf in H.
  - intros subject body to_addrs w0 e He.
    pose proof (send_email_run smtp subject body to_addrs w0) as H.
    destruct (str_items to_addrs) as [recipients|]; cbv zeta in H;
      rewrite H in *; simpl in He; [discriminate|].
    injection He as <-. now repeat split.
  - cbv zeta.
    destruct (agree_check_excel smtp (fun _ _ => true) current_hash
                df_current today w) as (Hr & Hd & Hh & Ho & Hc).
    now repeat split.
  - rewrite check_excel_run.
    rewrite <- (saved_outbox current_hash df_current w).
    unfold check_dates, date_add_days, bind.
    destruct ((1 <=? today + 1) && (today + 1 <=? date_max));
      [|discriminate].
    cbn [ret]. apply for_attempts.
  - intros Hcols Hrows Htoday.
    rewrite check_excel_run, check_dates_run by exact Htoday.
    unfold iterrows. rewrite Hcols.
    destruct (for_expected smtp today (values df_current)
                (saved current_hash df_current w) Hrows) as (w' & -> & O).
    cbn [fst snd]. split; [reflexivity|]. now rewrite O, saved_outbox.
Qed.

End Issuance.

(** ** [compute_file_hash] *)

Section Hashing.

(** [hashlib.sha256]: a fresh hash object, [update] and [hexdigest]. *)
Variable sha256_state : Type.
Variable sha256_new : sha256_state.
Variable sha256_update : sha256_state -> list Byte.byte -> sha256_state.
Variable sha256_hexdigest : sha256_state -> pystr.

(** What hashlib documents of [update]: feeding two blocks one after the
    other is feeding their concatenation. *)
Hypothesis sha256_update_update : forall h a b,
  sha256_update (sha256_update h a) b = sha256_update h (a ++ b).

Definition block_size : nat := 4096.

(** [f.read(n)] on the bytes of the file not yet read: the block, and what
    is left. *)
Definition read (n : nat) (rest : list Byte.byte)
  : list Byte.byte * list Byte.byte :=
  (firstn n rest, skipn n rest).

(** The loop [for byte_block in iter(lambda: f.read(4096), b"")]; it ends
    at the first empty block and gives [None] if it was cut short. *)
Fixpoint feed_blocks (fuel : nat) (h : sha256_state) (rest : list Byte.byte)
  : option sha256_state :=
  match fuel with
  | O => None
  | S fuel' =>
      match read block_size rest with
      | ([], _) => Some h
      | (byte_block, rest') =>
          feed_blocks fuel' (sha256_update h byte_block) rest'
      end
  end.

Definition compute_file_hash (content : list Byte.byte) : option pystr :=
  option_map sha256_hexdigest
    (feed_blocks (S (length content)) sha256_new content).

Lemma feed_blocks_all (fuel : nat) (h : sha256_state)
    (rest : list Byte.byte) :
  (length rest < fuel)%nat ->
  feed_blocks fuel h rest
  = Some (match rest with [] => h | _ => sha256_update h rest end).
Proof.
  revert h rest; induction fuel as [|fuel IH]; intros h rest Hlen; [lia|].
  cbn [feed_blocks]. unfold read.
  destruct rest as [|b rest]; [reflexivity|].
  assert (Hblock : firstn block_size (b :: rest) <> []).
  { unfold block_size. simpl. discriminate. }
  destruct (firstn block_size (b :: rest)) as [|b0 block] eqn:E; [easy|].
  rewrite IH.
  - f_equal. pose proof (firstn_skipn block_size (b :: rest)) as FS.
    rewrite E in FS.
    destruct (skipn block_size (b :: rest)) as [|b1 rest'] eqn:R.
    + rewrite app_nil_r in FS. now rewrite FS.
    + now rewrite sha256_update_update, FS.
  - assert (B : (1 <= block_size)%nat)
      by (unfold block_size; apply le_n_S, Nat.le_0_l).
    rewrite length_skipn. cbn [length] in *. lia.
Qed.

(** X13: whatever the length of the file, the loop of [compute_file_hash]
    ends after the last block and the result is the digest of the whole
    content, every byte fed once and in order: the cuts between the blocks
    of 4096 bytes do not show.  For an empty file no block is fed at all. *)
Theorem compute_file_hash_whole_content (content : list Byte.byte) :
  compute_file_hash content
  = Some (sha256_hexdigest
            (match content with
             | [] => sha256_new
             | _ => sha256_update sha256_new content
             end)).
Proof.
  unfold compute_file_hash. rewrite feed_blocks_all by lia. reflexivity.
Qed.

End Hashing.

(** ** The theorems at work on a small sheet *)

(** A relay that is down, and the identity in place of the Unicode case
    tables (the text below is ASCII). *)
Definition relay_down : Transport := fun _ _ => false.

Definition no_case_tables : pystr -> pystr := fun s => s.

Lemma one_trailing_row_added_witness :
  exists record,
    iloc_to_dict grown_sheet (len dated_sheet) = Some record
    /\ fst (compare_row_by_row grown_sheet (Some dated_sheet) first_world)
       = Ok tt
    /\ journal
         (snd (compare_row_by_row grown_sheet (Some dated_sheet) first_world))
       = journal first_world
         ++ [Logged (ShapeChanged (shape dated_sheet) (shape grown_sheet));
             Logged (RowAdded (len dated_sheet) record)].
Proof.
  apply (one_trailing_row_added grown_sheet dated_sheet first_world).
  - reflexivity.
  - reflexivity.
  - intros row col a b Ha Hb.
    destruct row as [|row];
      [|unfold iat in Hb; simpl in Hb; destruct row; discriminate Hb].
    do 7 (destruct col as [|col];
          [injection Ha as <-; injection Hb as <-; reflexivity|]).
    unfold iat in Hb; simpl in Hb; destruct col; discriminate Hb.
Defined.

Lemma first_run_witness :
  let w' :=
    snd (check_excel no_case_tables relay_down (lit "3a7bd3e2")
           undated_sheet 738950 first_world) in
  change_log (journal w') = change_log (journal first_world) ++ [NoPreviousData]
  /\ last_data_pkl w' = Some undated_sheet
  /\ last_hash_txt w' = Some (lit "3a7bd3e2").
Proof.
  apply (first_run no_case_tables relay_down (lit "3a7bd3e2") undated_sheet
           738950 first_world); reflexivity.
Defined.

Lemma notification_recipients_witness :
  outbox
    (journal
       (snd (loop_body no_case_tables relay_down 738950 (738950 + 1)
               (sheet_row (VStr (lit "Asha")) (VInt 101) (VStr (lit "T-1"))
                  VNaT (VTimestamp (19788 * ns_per_day))
                  (VStr (lit "asha@example.org")) (VStr (lit "No")))
               first_world)))
  = outbox (journal first_world)
    ++ [{| subject := lit "Return Due Tomorrow";
           body := reminder_body (VStr (lit "Asha")) (VInt 101);
           to_addrs := [lit "asha@example.org"] |}]
  /\ outbox
       (journal
          (snd (loop_body no_case_tables relay_down 738950 (738950 + 1)
                  (sheet_row (VStr (lit "Asha")) (VInt 101) (VStr (lit "T-1"))
                     VNaT (VTimestamp (19786 * ns_per_day))
                     (VStr (lit "asha@example.org")) (VStr (lit "no")))
                  first_world)))
     = outbox (journal first_world)
       ++ [{| subject := lit "Failure of Returning";
              body := overdue_body (VInt 101);
              to_addrs := [lit "admin1@yourdomain.com";
                           lit "admin2@yourdomain.com"] |}].
Proof.
  split.
  - apply (proj1 (notification_recipients no_case_tables relay_down 738950
                    (VStr (lit "Asha")) (VInt 101) (VStr (lit "T-1")) VNaT
                    (VStr (lit "asha@example.org")) (VStr (lit "No"))
                    (19788 * ns_per_day) first_world) eq_refl).
    reflexivity.
  - apply (proj2 (notification_recipients no_case_tables relay_down 738950
                    (VStr (lit "Asha")) (VInt 101) (VStr (lit "T-1")) VNaT
                    (VStr (lit "asha@example.org")) (VStr (lit "no"))
                    (19786 * ns_per_day) first_world) eq_refl).
Defined.

(** ** More sheets, and the further theorems at work on them *)

(** [dated_sheet] after the name of its record was edited. *)
Definition renamed_sheet : DataFrame :=
  {| columns := sheet_columns;
     values := [[VStr (lit "Asha K"); VInt 101; VStr (lit "T-1");
                 VTimestamp (19782 * ns_per_day);
                 VTimestamp (19789 * ns_per_day);
                 VStr (lit "asha@example.org"); VStr (lit "no")]];
     rectangular := eq_refl |}.

(** A sheet without the Returned column. *)
Definition flagless_sheet : DataFrame :=
  {| columns :=
       map lit ["Name"; "Roll Number"; "RFID Tag"; "Date of Issuing";
                "Date of Return"; "Email"]%string;
     values := [[VStr (lit "Asha"); VInt 101; VStr (lit "T-1");
                 VTimestamp (19782 * ns_per_day);
                 VTimestamp (19789 * ns_per_day);
                 VStr (lit "asha@example.org")]];
     rectangular := eq_refl |}.

(** A sheet whose first record, due on day 19788 after the epoch, has an
    empty Email cell. *)
Definition unaddressed_sheet : DataFrame :=
  {| columns := sheet_columns;
     values := [[VStr (lit "Asha"); VInt 101; VStr (lit "T-1");
                 VTimestamp (19782 * ns_per_day);
                 VTimestamp (19788 * ns_per_day); VNaN; VStr (lit "no")];
                [VStr (lit "Ravi"); VInt 102; VStr (lit "T-2");
                 VTimestamp (19783 * ns_per_day);
                 VTimestamp (19788 * ns_per_day);
                 VStr (lit "ravi@example.org"); VStr (lit "no")]];
     rectangular := eq_refl |}.

(** A world that holds [dated_sheet] and the digest of an earlier version
    of the file, followed by a line break. *)
Definition stored_world : World :=
  {| last_data_pkl := Some dated_sheet;
     last_hash_txt := Some (lit "9c1185a5" ++ [10%N]);
     journal := [] |}.

Lemma dated_sheet_no_nulls (row col : nat) (v : value) :
  iat dated_sheet row col = Some v -> isnull v = false.
Proof.
  intros H.
  destruct row as [|row];
    [|unfold iat in H; simpl in H; destruct row; discriminate H].
  do 7 (destruct col as [|col]; [injection H as <-; reflexivity|]).
  unfold iat in H; simpl in H; destruct col; discriminate H.
Qed.

Lemma dated_grown_shared (row col : nat) (a b : value) :
  iat dated_sheet row col = Some a -> iat grown_sheet row col = Some b ->
  py_ne a b = false.
Proof.
  intros Ha Hb.
  destruct row as [|row];
    [|unfold iat in Ha; simpl in Ha; destruct row; discriminate Ha].
  do 7 (destruct col as [|col];
        [injection Ha as <-; injection Hb as <-; reflexivity|]).
  unfold iat in Ha; simpl in Ha; destruct col; discriminate Ha.
Qed.

Lemma one_cell_changed_witness :
  compare_row_by_row renamed_sheet (Some dated_sheet) first_world
  = (Ok tt,
     perform
       (Logged (CellChanged 0 0 (VStr (lit "Asha")) (VStr (lit "Asha K"))))
       first_world).
Proof.
  apply one_cell_changed; try reflexivity.
  intros row col a b Hd Ha Hb.
  destruct row as [|row];
    [|unfold iat in Ha; simpl in Ha; destruct row; discriminate Ha].
  destruct col as [|col]; [now destruct Hd|].
  do 6 (destruct col as [|col];
        [injection Ha as <-; injection Hb as <-; reflexivity|]).
  unfold iat in Ha; simpl in Ha; destruct col; discriminate Ha.
Defined.

Lemma trailing_rows_reported_witness :
  change_log
    (journal
       (snd (compare_row_by_row dated_sheet (Some grown_sheet) first_world)))
  = change_log (journal first_world)
    ++ ShapeChanged (shape grown_sheet) (shape dated_sheet)
       :: map (fun r => RowRemoved r (record_at grown_sheet r))
            (range (len dated_sheet) (len grown_sheet)).
Proof.
  refine (proj2 (trailing_rows_reported dated_sheet grown_sheet first_world
                   dated_grown_shared) _).
  unfold len. simpl. lia.
Defined.

Lemma rerun_on_stored_frame_witness :
  change_log
    (journal
       (snd (check_excel no_case_tables relay_down (lit "3a7bd3e2")
               dated_sheet 738950 stored_world)))
  = change_log (journal stored_world) ++ [HashChanged].
Proof.
  refine (proj2 (rerun_on_stored_frame no_case_tables relay_down
                   (lit "3a7bd3e2") dated_sheet 738950 stored_world
                   eq_refl dated_sheet_no_nulls)
            (lit "9c1185a5") eq_refl _ _); discriminate.
Defined.

Lemma second_run_is_silent_witness :
  let w1 :=
    snd (check_excel no_case_tables relay_down (lit "3a7bd3e2") dated_sheet
           738950 first_world) in
  change_log
    (journal
       (snd (check_excel no_case_tables relay_down (lit "3a7bd3e2")
               dated_sheet 738951 w1)))
  = change_log (journal w1).
Proof.
  apply (second_run_is_silent no_case_tables relay_down relay_down
           (lit "3a7bd3e2") dated_sheet 738950 738951 first_world eq_refl
           dated_sheet_no_nulls).
Defined.

Lemma missing_column_raises_witness :
  let w' :=
    snd (check_excel no_case_tables relay_down (lit "3a7bd3e2")
           flagless_sheet 738950 first_world) in
  fst (check_excel no_case_tables relay_down (lit "3a7bd3e2") flagless_sheet
         738950 first_world)
  = Raise (KeyError (lit "Returned"))
  /\ outbox (journal w') = outbox (journal first_world)
  /\ last_data_pkl w' = Some flagless_sheet
  /\ last_hash_txt w' = Some (lit "3a7bd3e2").
Proof.
  apply (missing_column_raises no_case_tables relay_down (lit "3a7bd3e2")
           flagless_sheet 738950 first_world "Returned");
    [reflexivity|reflexivity|discriminate|unfold date_max; lia].
Defined.

Lemma no_return_dates_no_mail_witness :
  check_excel no_case_tables relay_down (lit "3a7bd3e2") undated_sheet 738950
    first_world
  = (Ok tt, saved (lit "3a7bd3e2") undated_sheet first_world)
  /\ outbox
       (journal
          (snd (check_excel no_case_tables relay_down (lit "3a7bd3e2")
                  undated_sheet 738950 first_world)))
     = outbox (journal first_world).
Proof.
  apply (no_return_dates_no_mail no_case_tables relay_down (lit "3a7bd3e2")
           undated_sheet 738950 first_world);
    [reflexivity|reflexivity| |unfold date_max; lia].
  intros cs v [<-|[]] H. now injection H as <-.
Defined.

Lemma reminder_without_address_aborts_witness :
  let w' :=
    snd (check_excel no_case_tables relay_down (lit "3a7bd3e2")
           unaddressed_sheet 738950 first_world) in
  fst (check_excel no_case_tables relay_down (lit "3a7bd3e2")
         unaddressed_sheet 738950 first_world)
  = Raise TypeError
  /\ outbox (journal w') = outbox (journal first_world)
  /\ last_data_pkl w' = Some unaddressed_sheet
  /\ last_hash_txt w' = Some (lit "3a7bd3e2").
Proof.
  apply (reminder_without_address_aborts no_case_tables relay_down
           (lit "3a7bd3e2") unaddressed_sheet 738950 first_world
           (VStr (lit "Asha")) (VInt 101) (VStr (lit "T-1"))
           (VTimestamp (19782 * ns_per_day)) VNaN (VStr (lit "no"))
           (19788 * ns_per_day)
           [[VStr (lit "Ravi"); VInt 102; VStr (lit "T-2");
             VTimestamp (19783 * ns_per_day);
             VTimestamp (19788 * ns_per_day);
             VStr (lit "ravi@example.org"); VStr (lit "no")]]);
    try reflexivity; [discriminate|unfold date_max; lia].
Defined.

Lemma run_sends_planned_messages_witness :
  fst (check_excel no_case_tables relay_down (lit "3a7bd3e2") grown_sheet
         738951 first_world)
  = Ok tt
  /\ outbox
       (journal
          (snd (check_excel no_case_tables relay_down (lit "3a7bd3e2")
                  grown_sheet 738951 first_world)))
     = outbox (journal first_world)
       ++ [{| subject := lit "Return Due Tomorrow";
              body := reminder_body (VStr (lit "Asha")) (VInt 101);
              to_addrs := [lit "asha@example.org"] |}].
Proof.
  apply (run_sends_planned_messages no_case_tables relay_down
           (lit "3a7bd3e2") grown_sheet 738951 first_world);
    [reflexivity| |unfold date_max; lia].
  repeat constructor;
    do 7 eexists; (split; [reflexivity|right; eexists; reflexivity]).
Defined.

(** A hash object that keeps the bytes it was fed, in place of SHA-256. *)
Lemma compute_file_hash_whole_content_witness :
  compute_file_hash (list Byte.byte) [] (@app Byte.byte)
    (map Byte.to_N) [Byte.x61; Byte.x62; Byte.x63]
  = Some (map Byte.to_N [Byte.x61; Byte.x62; Byte.x63]).
Proof.
  apply (compute_file_hash_whole_content (list Byte.byte) []
           (@app Byte.byte) (map Byte.to_N)).
  intros h a b. symmetry. apply app_assoc.
Defined.

Lemma stores_round_trip_witness :
  (save_current_hash (lit "3a7bd3e2") ;; load_previous_hash) first_world
  = (Ok (Some (lit "3a7bd3e2")),
     perform (HashWritten (lit "3a7bd3e2")) first_world).
Proof. apply (stores_round_trip (lit "3a7bd3e2") first_world). reflexivity. Defined.

(** With the relay down, both records of [two_due_sheet] are still looked
    at on day 19787 after the epoch. *)
Lemma transport_failure_does_not_abort_witness :
  fst (check_excel no_case_tables relay_down (lit "3a7bd3e2") two_due_sheet
         738950 first_world)
  = Ok tt
  /\ outbox
       (journal
          (snd (check_excel no_case_tables relay_down (lit "3a7bd3e2")
                  two_due_sheet 738950 first_world)))
     = outbox (journal first_world)
       ++ [{| subject := lit "Return Due Tomorrow";
              body := reminder_body (VStr (lit "Asha")) (VInt 101);
              to_addrs := [lit "asha@example.org"] |};
           {| subject := lit "Failure of Returning";
              body := overdue_body (VInt 102);
              to_addrs := [lit "admin1@yourdomain.com";
                           lit "admin2@yourdomain.com"] |}].
Proof.
  apply (proj2 (proj2 (proj2 (proj2
           (transport_failure_does_not_abort no_case_tables relay_down
              (lit "3a7bd3e2") two_due_sheet 738950 first_world)))));
    [reflexivity| |unfold date_max; lia].
  repeat constructor;
    do 7 eexists; (split; [reflexivity|right; eexists; reflexivity]).
Defined.
